(** * deploy_rest.py: the Sentinel REST deployer, embedded and verified

    A shallow embedding of [AzureRestDeployer], [load_parameters] and [main]
    of [deploy_rest.py].  Python values are JSON values, effects (HTTP
    requests, the wall clock, [time.sleep], [print], credential providers,
    sub-processes, files) are threaded through an explicit [World], and the
    answers of the outside world come from an [Env] oracle. *)

From Stdlib Require Import ZArith List String Ascii Bool Lia.
From Stdlib Require Import DecimalString.
Import ListNotations.
Local Open Scope Z_scope.
Local Open Scope string_scope.
Set Warnings "-register-all".

(* ================================================================== *)
(** ** Python values *)

(** What [json.load] / [response.json()] produce.  [JNull] is Python's
    [None]; a dict is an association list in insertion order whose keys are
    pairwise distinct, as in a Python dict.  Numbers are the integers
    (non-integral JSON numbers are not represented). *)
Inductive json : Type :=
| JNull
| JBool (b : bool)
| JNum (n : Z)
| JStr (s : string)
| JArr (xs : list json)
| JObj (kvs : list (string * json)).

Fixpoint lookup (k : string) (kvs : list (string * json)) : option json :=
  match kvs with
  | [] => None
  | (k', v) :: rest => if String.eqb k k' then Some v else lookup k rest
  end.

Definition b2z (b : bool) : Z := if b then 1 else 0.

(** Python's [==] on these values ([True == 1]; dicts compare as maps). *)
Fixpoint py_eq (a b : json) {struct a} : bool :=
  match a, b with
  | JNull, JNull => true
  | JBool x, JBool y => Bool.eqb x y
  | JBool x, JNum n => Z.eqb (b2z x) n
  | JNum n, JBool y => Z.eqb n (b2z y)
  | JNum n, JNum m => Z.eqb n m
  | JStr s, JStr t => String.eqb s t
  | JArr xs, JArr ys =>
      (fix go (l : list json) (r : list json) {struct l} : bool :=
         match l, r with
         | [], [] => true
         | x :: l', y :: r' => py_eq x y && go l' r'
         | _, _ => false
         end) xs ys
  | JObj xs, JObj ys =>
      (Nat.eqb (List.length xs) (List.length ys)) &&
      (fix all (l : list (string * json)) {struct l} : bool :=
         match l with
         | [] => true
         | (k, v) :: l' =>
             match lookup k ys with
             | Some w => py_eq v w && all l'
             | None => false
             end
         end) xs
  | _, _ => false
  end.

(** [x in [a, b, c]] for a list literal. *)
Definition py_in (x : json) (l : list json) : bool :=
  existsb (fun y => py_eq x y) l.

(** Truth value of a Python object ([if x:]). *)
Definition truthy (j : json) : bool :=
  match j with
  | JNull => false
  | JBool b => b
  | JNum n => negb (Z.eqb n 0)
  | JStr s => negb (String.eqb s "")
  | JArr xs => match xs with [] => false | _ => true end
  | JObj kvs => match kvs with [] => false | _ => true end
  end.

(* ================================================================== *)
(** ** HTTP, exceptions, messages *)

Record Response : Type := mkResponse {
  status_code : Z;
  headers : list (string * string);
  (** [None]: the body is not a JSON document, [response.json()] raises. *)
  body : option json
}.

(** The exception classes the program can meet.  All of them derive from
    [Exception]; [HTTPError] and [requests]' [JSONDecodeError] are
    [RequestException]s and carry the response they came from. *)
Inductive exn : Type :=
| RequestException (response : option Response)
| ClientAuthenticationError
| CalledProcessError
| AttributeError
| TypeError
| ValueError
| OtherException (name : string).

Definition is_RequestException (e : exn) : bool :=
  match e with RequestException _ => true | _ => false end.
Definition is_ClientAuthenticationError (e : exn) : bool :=
  match e with ClientAuthenticationError => true | _ => false end.
Definition is_CalledProcessError (e : exn) : bool :=
  match e with CalledProcessError => true | _ => false end.

(** A value or a raised exception, for expressions without effects. *)
Inductive outcome (A : Type) : Type :=
| Val (a : A)
| Exn (e : exn).
Arguments Val {A} a.
Arguments Exn {A} e.

Inductive verb : Type := GET | PUT | POST.

Record Request : Type := mkRequest {
  method : verb;
  url : string;
  req_headers : list (string * string);
  payload : option json
}.

(** One line written by [print]: the fixed text (colours and the check
    marks are left out) and the interpolated values. *)
Inductive message : Type :=
| Line (text : string)
| LineV (text : string) (v : json)
| LineE (text : string) (e : exn).

(* ================================================================== *)
(** ** The world *)

(** Clock resolution: [time.time()] is read in ticks of a millisecond, and
    differences of readings are exact; the source subtracts floats. *)
Definition ticks_per_second : Z := 1000.

Inductive provider : Type := AzureCliCredential | DefaultAzureCredential.

(** The deployer's two mutable attributes. *)
Record Attrs : Type := mkAttrs {
  access_token : option string;
  credential : option provider
}.

(** The clock, what the program has done so far (most recent first), and
    the attributes of the one deployer object. *)
Record World : Type := mkWorld {
  clock : Z;
  sent : list Request;
  slept : list Z;
  printed : list message;
  asked : list provider;
  attrs : Attrs
}.

(** The answers of the outside world.  The [n]-th HTTP request gets
    [http_reply n], takes [http_latency n] ticks; the [n]-th sleep overruns by
    [sleep_overrun n] ticks: the clock never runs backwards and a sleep
    lasts at least as long as asked. *)
Record Env : Type := mkEnv {
  http_reply : nat -> Request -> outcome Response;
  http_latency : nat -> N;
  sleep_overrun : nat -> N;
  get_token : provider -> outcome string;
  az_account_show : outcome string;
  path_exists : string -> bool;
  read_json : string -> outcome json;
  script_dir : string;
  az_bicep_build : string -> outcome string;
  json_loads : string -> outcome json
}.

(** Result of running a command: a value or an exception, with the world
    it leaves, or [Spin] when a loop was still running as the fuel ran out. *)
Inductive res (A : Type) : Type :=
| Ret (a : A) (w : World)
| Raise (e : exn) (w : World)
| Spin.
Arguments Ret {A} a w.
Arguments Raise {A} e w.
Arguments Spin {A}.

Definition M (A : Type) : Type := World -> res A.

Definition ret {A} (a : A) : M A := fun w => Ret a w.
Definition raise {A} (e : exn) : M A := fun w => Raise e w.
Definition bind {A B} (m : M A) (k : A -> M B) : M B :=
  fun w => match m w with
           | Ret a w' => k a w'
           | Raise e w' => Raise e w'
           | Spin => Spin
           end.
Definition lift {A} (o : outcome A) : M A :=
  match o with Val a => ret a | Exn e => raise e end.

(** [try: m  except <class>: h]. *)
Definition try_except {A} (m : M A) (catches : exn -> bool) (h : exn -> M A) : M A :=
  fun w => match m w with
           | Raise e w' => if catches e then h e w' else Raise e w'
           | r => r
           end.
Definition any_Exception (_ : exn) : bool := true.

Declare Scope py_scope.
Delimit Scope py_scope with py.
Notation "x <- m ;; k" := (bind m (fun x => k))
  (at level 61, m at next level, right associativity) : py_scope.
Notation "m ;;; k" := (bind m (fun _ => k))
  (at level 61, right associativity) : py_scope.
Local Open Scope py_scope.

(** [print(...)]: the line is added to the output.  The output stream is
    taken to accept every line; an encoding error of [sys.stdout] on the
    check and cross marks is not modelled. *)
Definition print (m : message) : M unit :=
  fun w => Ret tt (mkWorld (clock w) (sent w) (slept w) (m :: printed w) (asked w) (attrs w)).

Definition time_time : M Z := fun w => Ret (clock w) w.

(** [time.sleep(s)]: [ValueError] on a negative length. *)
Definition time_sleep (env : Env) (s : Z) : M unit :=
  fun w =>
    if Z.ltb s 0 then Raise ValueError w
    else Ret tt (mkWorld (clock w + s * ticks_per_second
                            + Z.of_N (sleep_overrun env (List.length (slept w))))
                         (sent w) (s :: slept w) (printed w) (asked w) (attrs w)).

(** [requests.get/put/post]: the request is recorded, time passes, and the
    reply (or a [RequestException]) comes back. *)
Definition requests_send (env : Env) (rq : Request) : M Response :=
  fun w =>
    let n := List.length (sent w) in
    let w' := mkWorld (clock w + Z.of_N (http_latency env n))
                      (rq :: sent w) (slept w) (printed w) (asked w) (attrs w) in
    match http_reply env n rq with
    | Val r => Ret r w'
    | Exn e => Raise e w'
    end.

(** [response.raise_for_status()]. *)
Definition raise_for_status (r : Response) : M unit :=
  if Z.leb 400 (status_code r) && Z.ltb (status_code r) 600
  then raise (RequestException (Some r)) else ret tt.

(** [response.json()]. *)
Definition response_json (r : Response) : M json :=
  match body r with
  | Some j => ret j
  | None => raise (RequestException (Some r))
  end.

(** [d.get(k, default)]: only a dict has [get]. *)
Definition py_get (d : json) (k : string) (default : json) : M json :=
  match d with
  | JObj kvs => ret (match lookup k kvs with Some v => v | None => default end)
  | _ => raise AttributeError
  end.

(** [x[k]] for a string key. *)
Definition py_getitem (d : json) (k : string) : M json :=
  match d with
  | JObj kvs => match lookup k kvs with
                | Some v => ret v
                | None => raise (OtherException "KeyError")
                end
  | _ => raise TypeError
  end.

(** [d.items()]. *)
Definition py_items (d : json) : M (list (string * json)) :=
  match d with
  | JObj kvs => ret kvs
  | _ => raise AttributeError
  end.

(** ['k' in x]: key of a dict, element of a list, substring of a string. *)
Definition py_contains (k : string) (x : json) : M bool :=
  match x with
  | JObj kvs => ret (match lookup k kvs with Some _ => true | None => false end)
  | JArr xs => ret (existsb (fun y => py_eq y (JStr k)) xs)
  | JStr s => ret (match String.index 0 k s with Some _ => true | None => false end)
  | _ => raise TypeError
  end.

(** A comprehension / [for] loop over a list, left to right. *)
Fixpoint for_each {A B} (f : A -> M B) (l : list A) : M (list B) :=
  match l with
  | [] => ret []
  | a :: l' => b <- f a ;; bs <- for_each f l' ;; ret (b :: bs)
  end.

(** [str(n)] for an integer. *)
Definition str_int (n : Z) : string := NilZero.string_of_int (Z.to_int n).

(** [int(time.time())]: whole seconds. *)
Definition int_time : M Z := now <- time_time ;; ret (now / ticks_per_second).

Definition lower_ascii (c : ascii) : ascii :=
  let n := nat_of_ascii c in
  if (Nat.leb 65 n && Nat.leb n 90)%bool then ascii_of_nat (n + 32) else c.
Fixpoint lower (s : string) : string :=
  match s with
  | EmptyString => EmptyString
  | String c s' => String (lower_ascii c) (lower s')
  end.

(** [response.headers.get(name)]: header names compare case-insensitively. *)
Fixpoint headers_get (name : string) (hs : list (string * string)) : option string :=
  match hs with
  | [] => None
  | (k, v) :: rest =>
      if String.eqb (lower k) (lower name) then Some v else headers_get name rest
  end.

(* ================================================================== *)
(** ** class AzureRestDeployer *)

Record Deployer : Type := mkDeployer {
  subscription_id : string;
  verbose : bool
}.

Definition API_VERSION_RESOURCES : string := "2021-04-01".
Definition API_VERSION_DEPLOYMENTS : string := "2021-04-01".

Definition set_attrs (a : Attrs) : M unit :=
  fun w => Ret tt (mkWorld (clock w) (sent w) (slept w) (printed w) (asked w) a).
Definition get_attrs : M Attrs := fun w => Ret (attrs w) w.

(** [AzureRestDeployer.__init__]. *)
Definition init (sub : string) (v : bool) : M Deployer :=
  set_attrs (mkAttrs None None) ;;; ret (mkDeployer sub v).

(** [self.credential = P()]. *)
Definition set_credential (p : provider) : M unit :=
  a <- get_attrs ;; set_attrs (mkAttrs (access_token a) (Some p)).

(** [self.access_token = token.token]. *)
Definition set_access_token (t : string) : M unit :=
  a <- get_attrs ;; set_attrs (mkAttrs (Some t) (credential a)).

(** [self.credential.get_token("https://management.azure.com/.default")]:
    the provider asked is recorded. *)
Definition credential_get_token (env : Env) (p : provider) : M string :=
  fun w =>
    let w' := mkWorld (clock w) (sent w) (slept w) (printed w) (p :: asked w) (attrs w) in
    match get_token env p with
    | Val t => Ret t w'
    | Exn e => Raise e w'
    end.

Definition authenticate (env : Env) (self : Deployer) : M bool :=
  print (Line "Authenticating with Azure...") ;;;
  try_except
    (try_except
       (set_credential AzureCliCredential ;;;
        token <- credential_get_token env AzureCliCredential ;;
        set_access_token token ;;;
        print (Line "Authenticated using Azure CLI credentials") ;;;
        ret true)
       is_ClientAuthenticationError
       (fun _ =>
          set_credential DefaultAzureCredential ;;;
          token <- credential_get_token env DefaultAzureCredential ;;
          set_access_token token ;;;
          print (Line "Authenticated using default credentials") ;;;
          ret true))
    any_Exception
    (fun e =>
       print (LineE "Authentication failed: " e) ;;;
       print (Line "Please run 'az login' first or set up appropriate credentials") ;;;
       ret false).

Definition _get_headers : M (list (string * string)) :=
  a <- get_attrs ;;
  ret [("Authorization",
        "Bearer " ++ match access_token a with Some t => t | None => "None" end);
       ("Content-Type", "application/json")].

Definition requests_get (env : Env) (u : string) : M Response :=
  h <- _get_headers ;; requests_send env (mkRequest GET u h None).
Definition requests_put (env : Env) (u : string) (b : json) : M Response :=
  h <- _get_headers ;; requests_send env (mkRequest PUT u h (Some b)).
Definition requests_post (env : Env) (u : string) (b : json) : M Response :=
  h <- _get_headers ;; requests_send env (mkRequest POST u h (Some b)).

(** [if self.verbose and hasattr(e, 'response') and e.response is not None:
       print(f"Response: {e.response.text}")]. *)
Definition print_response_if_verbose (self : Deployer) (e : exn) : M unit :=
  match e with
  | RequestException (Some _) =>
      if verbose self then print (LineE "Response: " e) else ret tt
  | _ => ret tt
  end.

Definition subscription_url (self : Deployer) : string :=
  "https://management.azure.com/subscriptions/" ++ subscription_id self
  ++ "?api-version=" ++ API_VERSION_RESOURCES.

Definition get_subscription_info (env : Env) (self : Deployer) : M json :=
  try_except
    (response <- requests_get env (subscription_url self) ;;
     raise_for_status response ;;;
     response_json response)
    is_RequestException
    (fun e => print (LineE "Failed to get subscription info: " e) ;;; ret JNull).

Definition resource_group_url (self : Deployer) (resource_group_name : string) : string :=
  "https://management.azure.com/subscriptions/" ++ subscription_id self
  ++ "/resourcegroups/" ++ resource_group_name
  ++ "?api-version=" ++ API_VERSION_RESOURCES.

Definition check_resource_group_exists (env : Env) (self : Deployer)
    (resource_group_name : string) : M bool :=
  try_except
    (response <- requests_get env (resource_group_url self resource_group_name) ;;
     ret (Z.eqb (status_code response) 200))
    is_RequestException
    (fun _ => ret false).

Definition create_resource_group (env : Env) (self : Deployer)
    (resource_group_name location : string) : M bool :=
  try_except
    (response <- requests_put env (resource_group_url self resource_group_name)
                   (JObj [("location", JStr location)]) ;;
     raise_for_status response ;;;
     ret true)
    is_RequestException
    (fun e =>
       print (LineE "Failed to create resource group: " e) ;;;
       print_response_if_verbose self e ;;;
       ret false).

Definition compile_bicep (env : Env) (self : Deployer) (bicep_file : string) : M json :=
  print (Line "Building BICEP template...") ;;;
  try_except
    (try_except
       (stdout <- lift (az_bicep_build env bicep_file) ;;
        template <- lift (json_loads env stdout) ;;
        print (Line "BICEP template built successfully") ;;;
        ret template)
       is_CalledProcessError
       (fun e =>
          print (Line "Failed to build BICEP template") ;;;
          print (LineE "Error: " e) ;;;
          ret JNull))
    any_Exception
    (fun e => print (LineE "Failed to build BICEP template: " e) ;;; ret JNull).

(* ------------------------------------------------------------------ *)
(** *** The two poll loops *)

(** How one pass through a loop body ends: the function returns, or the
    loop goes round again carrying its local state. *)
Inductive step (S A : Type) : Type :=
| Return (a : A)
| Continue (s : S).
Arguments Return {S A} a.
Arguments Continue {S A} s.

Definition deployment_url (self : Deployer)
    (resource_group_name deployment_name : string) : string :=
  "https://management.azure.com/subscriptions/" ++ subscription_id self
  ++ "/resourcegroups/" ++ resource_group_name
  ++ "/providers/Microsoft.Resources/deployments/" ++ deployment_name
  ++ "?api-version=" ++ API_VERSION_DEPLOYMENTS.

Definition terminal_states : list json :=
  [JStr "Succeeded"; JStr "Failed"; JStr "Canceled"].

(** The [try ... except] inside the [while] of [_poll_deployment];
    [last_status] is the loop's local variable. *)
Definition poll_deployment_body (env : Env) (u : string) (poll_interval : Z)
    (last_status : json) : M (step json json) :=
  try_except
    (response <- requests_get env u ;;
     raise_for_status response ;;;
     result <- response_json response ;;
     properties <- py_get result "properties" (JObj []) ;;
     status <- py_get properties "provisioningState" JNull ;;
     last_status' <-
       (if negb (py_eq status last_status)
        then print (LineV "Deployment status: " status) ;;; ret status
        else ret last_status) ;;
     if py_in status terminal_states
     then ret (Return result)
     else time_sleep env poll_interval ;;; ret (Continue last_status'))
    is_RequestException
    (fun e =>
       print (LineE "Failed to poll deployment status: " e) ;;;
       ret (Return JNull)).

(** [while time.time() - start_time < timeout: ...], then the time-out
    exit.  [fuel] bounds the number of times the condition is evaluated. *)
Fixpoint poll_deployment_loop (env : Env) (fuel : nat) (u : string)
    (start_time timeout poll_interval : Z) (last_status : json) : M json :=
  match fuel with
  | O => fun _ => Spin
  | S fuel' =>
      now <- time_time ;;
      if Z.ltb (now - start_time) (timeout * ticks_per_second) then
        r <- poll_deployment_body env u poll_interval last_status ;;
        match r with
        | Return v => ret v
        | Continue last_status' =>
            poll_deployment_loop env fuel' u start_time timeout poll_interval last_status'
        end
      else
        print (LineV "Deployment timed out after (seconds) " (JNum timeout)) ;;;
        ret JNull
  end.

Definition _poll_deployment (env : Env) (fuel : nat) (self : Deployer)
    (resource_group_name deployment_name : string)
    (timeout poll_interval : Z) : M json :=
  start_time <- time_time ;;
  poll_deployment_loop env fuel
    (deployment_url self resource_group_name deployment_name)
    start_time timeout poll_interval JNull.

(** The [try ... except] inside the [while] of [_poll_async_operation]. *)
Definition poll_async_body (env : Env) (location_url : string) (poll_interval : Z)
    : M (step unit json) :=
  try_except
    (response <- requests_get env location_url ;;
     if Z.eqb (status_code response) 200 then
       j <- response_json response ;; ret (Return j)
     else if Z.eqb (status_code response) 202 then
       time_sleep env poll_interval ;;; ret (Continue tt)
     else ret (Return JNull))
    is_RequestException
    (fun _ => ret (Return JNull)).

Fixpoint poll_async_loop (env : Env) (fuel : nat) (location_url : string)
    (start_time timeout poll_interval : Z) : M json :=
  match fuel with
  | O => fun _ => Spin
  | S fuel' =>
      now <- time_time ;;
      if Z.ltb (now - start_time) (timeout * ticks_per_second) then
        r <- poll_async_body env location_url poll_interval ;;
        match r with
        | Return v => ret v
        | Continue _ =>
            poll_async_loop env fuel' location_url start_time timeout poll_interval
        end
      else ret JNull
  end.

Definition _poll_async_operation (env : Env) (fuel : nat) (location_url : string)
    (timeout poll_interval : Z) : M json :=
  start_time <- time_time ;;
  poll_async_loop env fuel location_url start_time timeout poll_interval.

(** Default arguments of the two pollers. *)
Definition POLL_DEPLOYMENT_TIMEOUT : Z := 1800.
Definition POLL_DEPLOYMENT_INTERVAL : Z := 10.
Definition POLL_ASYNC_TIMEOUT : Z := 300.
Definition POLL_ASYNC_INTERVAL : Z := 5.

(** Evaluations of the [while] condition that a loop with a positive
    interval can need: one per full interval of the budget, and the last
    one that finds the deadline passed. *)
Definition enough_fuel (timeout poll_interval : Z) : nat :=
  S (Z.to_nat ((timeout + poll_interval - 1) / poll_interval)).

(* ------------------------------------------------------------------ *)
(** *** Validation and deployment *)

Definition deployment_body (template parameters : json) : json :=
  JObj [("properties",
         JObj [("template", template);
               ("parameters", parameters);
               ("mode", JStr "Incremental")])].

Definition whatif_url (self : Deployer) (resource_group_name : string) (t : Z) : string :=
  "https://management.azure.com/subscriptions/" ++ subscription_id self
  ++ "/resourcegroups/" ++ resource_group_name
  ++ "/providers/Microsoft.Resources/deployments/validation-" ++ str_int t
  ++ "/whatIf?api-version=" ++ API_VERSION_DEPLOYMENTS.

(** [print(json.dumps(result, indent=2))] under [if self.verbose:]. *)
Definition print_if_verbose (self : Deployer) (result : json) : M unit :=
  if verbose self then print (LineV "" result) else ret tt.

(** The [try] block of [validate_deployment] yields [Some b] where the
    source has [return b] and [None] where control falls out of the block
    to the final [return False]. *)
Definition validate_deployment (env : Env) (self : Deployer)
    (resource_group_name : string) (template parameters : json) : M bool :=
  t <- int_time ;;
  r <- try_except
         (print (Line "Running deployment validation (What-If)...") ;;;
          response <- requests_post env (whatif_url self resource_group_name t)
                        (deployment_body template parameters) ;;
          raise_for_status response ;;;
          if Z.eqb (status_code response) 202 then
            match headers_get "Location" (headers response) with
            | Some location =>
                if negb (String.eqb location "") then
                  result <- _poll_async_operation env
                              (enough_fuel POLL_ASYNC_TIMEOUT POLL_ASYNC_INTERVAL)
                              location POLL_ASYNC_TIMEOUT POLL_ASYNC_INTERVAL ;;
                  if truthy result then
                    print (Line "Deployment validation successful") ;;;
                    print_if_verbose self result ;;;
                    ret (Some true)
                  else ret None
                else ret None
            | None => ret None
            end
          else
            result <- response_json response ;;
            print (Line "Deployment validation successful") ;;;
            print_if_verbose self result ;;;
            ret (Some true))
         is_RequestException
         (fun e =>
            print (LineE "Deployment validation failed: " e) ;;;
            print_response_if_verbose self e ;;;
            ret None) ;;
  match r with
  | Some b => ret b
  | None => ret false
  end.

Definition deploy_template (env : Env) (self : Deployer)
    (resource_group_name deployment_name : string)
    (template parameters : json) : M json :=
  try_except
    (print (Line "Starting deployment...") ;;;
     print (Line "This may take several minutes...") ;;;
     response <- requests_put env
                   (deployment_url self resource_group_name deployment_name)
                   (deployment_body template parameters) ;;
     raise_for_status response ;;;
     result <- _poll_deployment env
                 (enough_fuel POLL_DEPLOYMENT_TIMEOUT POLL_DEPLOYMENT_INTERVAL)
                 self resource_group_name deployment_name
                 POLL_DEPLOYMENT_TIMEOUT POLL_DEPLOYMENT_INTERVAL ;;
     succeeded <-
       (if truthy result then
          properties <- py_get result "properties" (JObj []) ;;
          status <- py_get properties "provisioningState" JNull ;;
          ret (py_eq status (JStr "Succeeded"))
        else ret false) ;;
     if succeeded : bool then
       print (Line "Deployment completed successfully!") ;;;
       ret result
     else
       print (Line "Deployment failed") ;;;
       (if truthy result then
          properties <- py_get result "properties" (JObj []) ;;
          error <- py_get properties "error" (JObj []) ;;
          if truthy error then print (LineV "Error: " error) else ret tt
        else ret tt) ;;;
       ret JNull)
    is_RequestException
    (fun e =>
       print (LineE "Deployment failed: " e) ;;;
       print_response_if_verbose self e ;;;
       ret JNull).

Definition get_deployment_outputs (env : Env) (self : Deployer)
    (resource_group_name deployment_name : string) : M json :=
  try_except
    (response <- requests_get env
                   (deployment_url self resource_group_name deployment_name) ;;
     raise_for_status response ;;;
     result <- response_json response ;;
     properties <- py_get result "properties" (JObj []) ;;
     py_get properties "outputs" (JObj []))
    is_RequestException
    (fun e => print (LineE "Failed to get deployment outputs: " e) ;;; ret JNull).

(* ================================================================== *)
(** ** load_parameters *)

(** [open] and [json.load] together are the oracle [read_json]. *)
Definition load_parameters (env : Env) (parameter_file : string) : M json :=
  try_except
    (params <- lift (read_json env parameter_file) ;;
     has <- py_contains "parameters" params ;;
     if has : bool then
       inner <- py_getitem params "parameters" ;;
       items <- py_items inner ;;
       flat <- for_each (fun kv : string * json =>
                           v <- py_get (snd kv) "value" JNull ;; ret (fst kv, v))
                        items ;;
       ret (JObj flat)
     else ret params)
    any_Exception
    (fun e => print (LineE "Failed to load parameters: " e) ;;; ret JNull).

(* ================================================================== *)
(** ** main *)

(** The parsed command line ([parser.parse_args()] has succeeded). *)
Record Args : Type := mkArgs {
  resource_group : string;
  location : string;
  parameter_file : string;
  arg_subscription_id : option string;
  what_if : bool;
  arg_verbose : bool
}.

(** [for key, value in outputs.items(): print(f"  {key}: {value.get('value', 'N/A')}")]. *)
Definition print_outputs (outputs : json) : M unit :=
  items <- py_items outputs ;;
  for_each (fun kv : string * json =>
              v <- py_get (snd kv) "value" (JStr "N/A") ;;
              print (LineV ("  " ++ fst kv ++ ": ") v))
           items ;;;
  ret tt.

(** [main] from the line after [args = parser.parse_args()] on: the
    command line has been parsed into [args]. *)
Definition main (env : Env) (args : Args) : M Z :=
  print (Line "Sentinel REST API Deployment") ;;;
  (* Get subscription ID *)
  got <- match arg_subscription_id args with
         | Some s => if negb (String.eqb s "") then ret (Some s)
                     else ret None
         | None => ret None
         end ;;
  sub <- match got with
         | Some s => ret (Some s)
         | None =>
             print (Line "Getting default subscription...") ;;;
             try_except
               (s <- lift (az_account_show env) ;;
                print (Line ("Using subscription: " ++ s)) ;;;
                ret (Some s))
               is_CalledProcessError
               (fun _ =>
                  print (Line "Failed to get subscription ID. Please specify with -s or run 'az login'") ;;;
                  ret None)
         end ;;
  match sub with
  | None => ret 1
  | Some subscription_id =>
  (* Initialize deployer *)
  deployer <- init subscription_id (arg_verbose args) ;;
  (* Authenticate *)
  ok <- authenticate env deployer ;;
  if negb ok then ret 1 else
  (* Get subscription info *)
  sub_info <- get_subscription_info env deployer ;;
  (if truthy sub_info then
     name <- py_get sub_info "displayName" (JStr "Unknown") ;;
     print (LineV ("Subscription (" ++ subscription_id ++ "): ") name)
   else ret tt) ;;;
  (* Verify parameter file exists *)
  if negb (path_exists env (parameter_file args)) then
    print (Line ("Parameter file not found: " ++ parameter_file args)) ;;;
    ret 1
  else
  print (Line ("Using parameter file: " ++ parameter_file args)) ;;;
  (* Load parameters *)
  parameters <- load_parameters env (parameter_file args) ;;
  match parameters with
  | JNull => ret 1
  | _ =>
  (* Convert parameters to ARM format *)
  items <- py_items parameters ;;
  let arm_parameters :=
    JObj (map (fun kv : string * json => (fst kv, JObj [("value", snd kv)])) items) in
  (* Check resource group *)
  print (Line "Checking resource group...") ;;;
  found <- check_resource_group_exists env deployer (resource_group args) ;;
  created <-
    (if negb found then
       print (Line ("Creating resource group: " ++ resource_group args
                    ++ " in " ++ location args)) ;;;
       c <- create_resource_group env deployer (resource_group args) (location args) ;;
       if negb c then ret false
       else print (Line "Resource group created") ;;; ret true
     else
       print (Line ("Resource group exists: " ++ resource_group args)) ;;;
       ret true) ;;
  if negb created then ret 1 else
  (* Compile BICEP template *)
  let bicep_file := script_dir env ++ "/main.bicep" in
  if negb (path_exists env bicep_file) then
    print (Line ("BICEP file not found: " ++ bicep_file)) ;;;
    ret 1
  else
  template <- compile_bicep env deployer bicep_file ;;
  match template with
  | JNull => ret 1
  | _ =>
  (* What-if mode or actual deployment *)
  if what_if args then
    validate_deployment env deployer (resource_group args) template arm_parameters ;;;
    ret 0
  else
    t <- int_time ;;
    let deployment_name := "sentinel-deployment-" ++ str_int t in
    result <- deploy_template env deployer (resource_group args) deployment_name
                template arm_parameters ;;
    if truthy result then
      outputs <- get_deployment_outputs env deployer (resource_group args)
                   deployment_name ;;
      (if truthy outputs then
         print (Line "Deployment outputs:") ;;; print_outputs outputs
       else ret tt) ;;;
      print (Line "Next steps:") ;;;
      ret 0
    else ret 1
  end end end.

(** [sys.exit(main())]: the exit status of the process.  An exception
    that leaves [main] ends the interpreter with status 1. *)
Definition exit_status (r : res Z) : option Z :=
  match r with
  | Ret c _ => Some c
  | Raise _ _ => Some 1
  | Spin => None
  end.

Definition fresh_world (t : Z) : World :=
  mkWorld t [] [] [] [] (mkAttrs None None).

(* ================================================================== *)
(** ** Scenarios *)

(** An outside world in which nothing is reachable and every local tool
    works; the scenarios below change one answer at a time. *)
Definition env_offline : Env :=
  mkEnv (fun _ _ => Exn (RequestException None))
        (fun _ => 0%N) (fun _ => 0%N)
        (fun _ => Val "token")
        (Val "00000000-0000-0000-0000-000000000000")
        (fun _ => true)
        (fun _ => Val (JObj [("workspaceName", JStr "sentinel")]))
        "/opt/sentinel"
        (fun _ => Val "{}")
        (fun _ => Val (JObj [("resources", JArr [])])).

Definition with_http (reply : nat -> Request -> outcome Response) (env : Env) : Env :=
  mkEnv reply (http_latency env) (sleep_overrun env) (get_token env)
        (az_account_show env) (path_exists env) (read_json env) (script_dir env)
        (az_bicep_build env) (json_loads env).

Definition with_tokens (tok : provider -> outcome string) (env : Env) : Env :=
  mkEnv (http_reply env) (http_latency env) (sleep_overrun env) tok
        (az_account_show env) (path_exists env) (read_json env) (script_dir env)
        (az_bicep_build env) (json_loads env).

Definition with_file (doc : outcome json) (env : Env) : Env :=
  mkEnv (http_reply env) (http_latency env) (sleep_overrun env) (get_token env)
        (az_account_show env) (path_exists env) (fun _ => doc) (script_dir env)
        (az_bicep_build env) (json_loads env).

Definition with_latency (lat : nat -> N) (env : Env) : Env :=
  mkEnv (http_reply env) lat (sleep_overrun env) (get_token env)
        (az_account_show env) (path_exists env) (read_json env) (script_dir env)
        (az_bicep_build env) (json_loads env).

Definition reply_status (code : Z) : outcome Response :=
  Val (mkResponse code [] (Some (JObj []))).

Definition reply_state (s : string) : outcome Response :=
  Val (mkResponse 200 []
         (Some (JObj [("properties", JObj [("provisioningState", JStr s)])]))).

Definition a_deployer : Deployer := mkDeployer "sub" false.

(** The CLI credential is refused for a reason that is not an
    authentication error. *)
Definition env_cli_broken : Env :=
  with_tokens (fun p => match p with
                        | AzureCliCredential => Exn (OtherException "OSError")
                        | DefaultAzureCredential => Val "token"
                        end) env_offline.

(** The resource-group lookup is answered with a server error. *)
Definition env_lookup_500 : Env := with_http (fun _ _ => reply_status 500) env_offline.

(** Every request is accepted with 202 and no [Location] header. *)
Definition env_202_bare : Env := with_http (fun _ _ => reply_status 202) env_offline.

(** The deployment stays in the transient state [Running] for ever. *)
Definition env_running : Env := with_http (fun _ _ => reply_state "Running") env_offline.


(** The follow-up URL answers 200 with a change preview. *)
Definition a_preview : json := JObj [("changes", JArr [])].
Definition env_resolved : Env :=
  with_http (fun _ _ => Val (mkResponse 200 [] (Some a_preview))) env_offline.

(** The first status request takes half an hour to be answered
    ([Running]); the others are answered at once. *)
Definition env_slow : Env :=
  with_latency (fun n => match n with O => 1800000%N | _ => 0%N end) env_running.

(** The follow-up URL answers 202, the first time after five minutes. *)
Definition env_slow_pending : Env :=
  with_latency (fun n => match n with O => 300000%N | _ => 0%N end) env_202_bare.

(** Every lookup succeeds, and the submission (the POST of a what-if, the
    PUT of a deployment) is refused with status 403. *)
Definition env_submission_refused : Env :=
  with_http (fun _ rq => match method rq with
                         | GET => reply_status 200
                         | PUT | POST => reply_status 403
                         end) env_offline.

Definition args_what_if : Args :=
  mkArgs "rg-sentinel-prod" "eastus" "parameters.json" (Some "sub") true false.
Definition args_deploy : Args :=
  mkArgs "rg-sentinel-prod" "eastus" "parameters.json" (Some "sub") false false.

(** A run in which everything works: the lookups are answered with 200,
    the deployment is accepted, and its state is [Accepted], [Running],
    then [Succeeded]. *)
Definition env_deployment : Env :=
  with_http (fun n _ => match n with
                        | 0%nat | 1%nat | 2%nat => reply_status 200
                        | 3%nat => reply_state "Accepted"
                        | 4%nat => reply_state "Running"
                        | _ => reply_state "Succeeded"
                        end) env_offline.

(** A what-if is accepted with a [Location] header; the follow-up URL
    answers 202 twice, then 200 with the preview. *)
Definition env_what_if : Env :=
  with_http (fun n _ => match n with
                        | 0%nat =>
                            Val (mkResponse 202 [("location", "https://follow.up")] None)
                        | 1%nat | 2%nat => reply_status 202
                        | _ => Val (mkResponse 200 [] (Some a_preview))
                        end) env_offline.

(* ================================================================== *)
(** ** Vocabulary of the statements *)

(** The request a [requests.get(u, headers=self._get_headers())] sends
    from world [w]. *)
Definition get_request (u : string) (w : World) : Request :=
  mkRequest GET u
    [("Authorization",
      "Bearer " ++ match access_token (attrs w) with Some t => t | None => "None" end);
     ("Content-Type", "application/json")]
    None.

(** The world after a request was sent and answered. *)
Definition after_request (env : Env) (rq : Request) (w : World) : World :=
  mkWorld (clock w + Z.of_N (http_latency env (List.length (sent w))))
          (rq :: sent w) (slept w) (printed w) (asked w) (attrs w).

(** The ARM parameter-file shape of a flat mapping:
    [{name: {"value": v}}] for every [name: v]. *)
Definition arm_wrap (flat : list (string * json)) : list (string * json) :=
  map (fun kv : string * json => (fst kv, JObj [("value", snd kv)])) flat.

(** The two documents of the loader's examples. *)
Definition doc_wrapped : json :=
  JObj [("parameters", JObj [("x", JObj [("value", JNum 5)])])].
Definition doc_flat : json := JObj [("x", JNum 5)].

(** The shape both poll loops share: while the deadline has not passed,
    run the body; when it has, run the time-out exit. *)
Fixpoint deadline_loop {S : Type} (body : S -> M (step S json)) (on_timeout : M json)
    (start_time timeout : Z) (fuel : nat) (s : S) : M json :=
  match fuel with
  | O => fun _ => Spin
  | S fuel' =>
      fun w =>
        if Z.ltb (clock w - start_time) (timeout * ticks_per_second) then
          match body s w with
          | Ret (Return v) w' => Ret v w'
          | Ret (Continue s') w' =>
              deadline_loop body on_timeout start_time timeout fuel' s' w'
          | Raise e w' => Raise e w'
          | Spin => Spin
          end
        else on_timeout w
  end.

(** The provisioning state a status document carries, when reading it
    raises nothing: [result.get('properties', {}).get('provisioningState')]. *)
Definition state_of (result : json) : option json :=
  match result with
  | JObj kvs =>
      match (match lookup "properties" kvs with Some p => p | None => JObj [] end) with
      | JObj ps => Some (match lookup "provisioningState" ps with
                         | Some s => s
                         | None => JNull
                         end)
      | _ => None
      end
  | _ => None
  end.

Definition is_error_status (r : Response) : bool :=
  Z.leb 400 (status_code r) && Z.ltb (status_code r) 600.

(** A reply from which the deployment poller reads a state. *)
Definition fetched_state (r : Response) : option (json * json) :=
  if is_error_status r then None
  else match body r with
       | Some result => match state_of result with
                        | Some s => Some (result, s)
                        | None => None
                        end
       | None => None
       end.

Definition is_terminal (s : json) : bool := py_in s terminal_states.

(** Number of requests sent between two worlds. *)
Definition fetches (w w' : World) : Z :=
  Z.of_nat (List.length (sent w')) - Z.of_nat (List.length (sent w)).

Definition timed_out_message (timeout : Z) : message :=
  LineV "Deployment timed out after (seconds) " (JNum timeout).

(** The world after a line was printed, and after a sleep of [s] seconds. *)
Definition after_print (m : message) (w : World) : World :=
  mkWorld (clock w) (sent w) (slept w) (m :: printed w) (asked w) (attrs w).

Definition after_sleep (env : Env) (s : Z) (w : World) : World :=
  mkWorld (clock w + s * ticks_per_second
             + Z.of_N (sleep_overrun env (List.length (slept w))))
          (sent w) (s :: slept w) (printed w) (asked w) (attrs w).

Definition poll_failed_message (e : exn) : message :=
  LineE "Failed to poll deployment status: " e.

Definition status_message (s : json) : message :=
  LineV "Deployment status: " s.

(** The time-out exit of [_poll_deployment]. *)
Definition deployment_timed_out (timeout : Z) : M json :=
  bind (print (timed_out_message timeout)) (fun _ => ret JNull).

(** A status document whose state is one of the three terminal ones. *)
Definition terminal_document (v : json) : Prop :=
  exists s, state_of v = Some s /\ is_terminal s = true.

(** [ceil(a / b)] for a positive [b]. *)
Definition ceil_div (a b : Z) : Z := (a + b - 1) / b.

(** A reply from which the deployment poller reads a state that is not
    terminal. *)
Definition transient_reply (o : outcome Response) : Prop :=
  exists r result s,
    o = Val r /\ fetched_state r = Some (result, s) /\ is_terminal s = false.

(** Ticks left before the deadline. *)
Definition budget (start_time timeout : Z) (w : World) : Z :=
  timeout * ticks_per_second - (clock w - start_time).

(** The headers every request carries when the token is [t]. *)
Definition bearer_headers (t : string) : list (string * string) :=
  [("Authorization", "Bearer " ++ t); ("Content-Type", "application/json")].

(** The request [create_resource_group] sends from world [w]. *)
Definition create_request (self : Deployer) (name location : string) (w : World)
    : Request :=
  mkRequest PUT (resource_group_url self name) (req_headers (get_request "" w))
    (Some (JObj [("location", JStr location)])).

(** [d.get(k, {})] on a dict given by its items. *)
Definition get_or_empty (k : string) (kvs : list (string * json)) : json :=
  match lookup k kvs with Some v => v | None => JObj [] end.

(** The reply has a status outside 400..599 and a JSON body [j]. *)
Definition ok_reply (o : outcome Response) (j : json) : Prop :=
  exists r, o = Val r /\ is_error_status r = false /\ body r = Some j.

(** The request fails: it raises a [RequestException], or the reply has an
    error status, or the body is not JSON. *)
Definition failed_reply (o : outcome Response) : Prop :=
  (exists x, o = Exn (RequestException x))
  \/ (exists r, o = Val r /\ (is_error_status r = true \/ body r = None)).

(** The BICEP build fails. *)
Definition env_bad_build : Env :=
  mkEnv (http_reply env_offline) (http_latency env_offline)
        (sleep_overrun env_offline) (get_token env_offline)
        (az_account_show env_offline) (path_exists env_offline)
        (read_json env_offline) (script_dir env_offline)
        (fun _ => Exn CalledProcessError) (json_loads env_offline).

(** The deployment document has no outputs. *)
Definition env_no_outputs : Env :=
  with_http (fun _ _ => Val (mkResponse 200 []
                               (Some (JObj [("properties", JObj [])])))) env_offline.

(** [v.get('value')] for an entry [v] that is a dict. *)
Definition entry_value (v : json) : json :=
  match v with
  | JObj o => match lookup "value" o with Some x => x | None => JNull end
  | _ => JNull
  end.

Definition is_dict (v : json) : Prop := exists o, v = JObj o.

Definition load_failed_message (e : exn) : message :=
  LineE "Failed to load parameters: " e.

(** A parameter file with metadata on one entry and no value on another,
    and one whose entry is a bare number. *)
Definition doc_with_metadata : json :=
  JObj [("parameters",
         JObj [("x", JObj [("value", JNum 5); ("metadata", JStr "size")]);
               ("y", JObj [])])].
Definition doc_bare_entry : json :=
  JObj [("parameters", JObj [("x", JNum 5)])].

(** The last request sent in [w] was answered with the JSON body [v]. *)
Definition last_reply_body (env : Env) (w : World) (v : json) : Prop :=
  exists rq rest r,
    sent w = rq :: rest
    /\ http_reply env (List.length rest) rq = Val r
    /\ body r = Some v.

(** The submission is refused: the request raises a [RequestException]
    or is answered with an error status. *)
Definition refused (o : outcome Response) : Prop :=
  (exists x, o = Exn (RequestException x))
  \/ (exists r, o = Val r /\ is_error_status r = true).

(** The requests [deploy_template] and [validate_deployment] submit from
    world [w]. *)
Definition deploy_request (self : Deployer) (rg name : string)
    (template parameters : json) (w : World) : Request :=
  mkRequest PUT (deployment_url self rg name) (req_headers (get_request "" w))
    (Some (deployment_body template parameters)).

Definition what_if_request (self : Deployer) (rg : string)
    (template parameters : json) (w : World) : Request :=
  mkRequest POST (whatif_url self rg (clock w / ticks_per_second))
    (req_headers (get_request "" w))
    (Some (deployment_body template parameters)).

Definition running_message : message :=
  Line "Running deployment validation (What-If)...".

(** A what-if is answered at once with an empty preview. *)
Definition env_empty_preview : Env :=
  with_http (fun _ _ => Val (mkResponse 200 [] (Some (JObj [])))) env_offline.

(** [m] ends, and every value it returns satisfies [P]. *)
Definition returns {A} (P : A -> Prop) (m : M A) : Prop :=
  forall w, match m w with
            | Ret a _ => P a
            | Raise _ _ => True
            | Spin => False
            end.

(** Started in a world that satisfies [P], [m] returns only values and
    worlds that satisfy [Q] (nothing is said of a run that raises). *)
Definition triple {A} (P : World -> Prop) (m : M A) (Q : A -> World -> Prop) : Prop :=
  forall w, P w -> match m w with
                   | Ret a w' => Q a w'
                   | _ => True
                   end.

(** Some request sent in [w] was answered with the JSON body [v]. *)
Definition answered (env : Env) (w : World) (v : json) : Prop :=
  exists front rq rest r,
    sent w = (front ++ rq :: rest)%list
    /\ http_reply env (List.length rest) rq = Val r
    /\ body r = Some v.

(** No provider issues a token to [authenticate]. *)
Definition no_token (env : Env) : Prop :=
  match get_token env AzureCliCredential with
  | Val _ => False
  | Exn ClientAuthenticationError =>
      match get_token env DefaultAzureCredential with
      | Val _ => False
      | Exn _ => True
      end
  | Exn _ => True
  end.

(** Both providers refuse with an authentication error. *)
Definition env_logged_out : Env :=
  with_tokens (fun _ => Exn ClientAuthenticationError) env_deployment.

(** Every request the command [m] sends satisfies [P]; the requests sent
    before it stay in the log, in their order. *)
Definition sends_only {A} (P : Request -> Prop) (m : M A) : Prop :=
  forall w, match m w with
            | Ret _ w' | Raise _ w' =>
                exists new, sent w' = (new ++ sent w)%list /\ Forall P new
            | Spin => True
            end.

(** The request creates the resource group named on the command line. *)
Definition creates_group (args : Args) (rq : Request) : Prop :=
  exists self,
    url rq = resource_group_url self (resource_group args)
    /\ payload rq = Some (JObj [("location", JStr (location args))]).

(** The request is no [PUT], or it creates the resource group. *)
Definition no_deployment (args : Args) (rq : Request) : Prop :=
  method rq = PUT -> creates_group args rq.

Definition args_what_if_new_group : Args :=
  mkArgs "rg-sentinel-dev" "westeurope" "parameters.json" (Some "sub") true false.

(** The resource group is not found; every other request is answered
    with 200. *)
Definition env_no_group : Env :=
  with_http (fun n _ => match n with
                        | 1%nat => reply_status 404
                        | _ => reply_status 200
                        end) env_offline.

(* ================================================================== *)
(** ** Theorems *)

Ltac unfold_m :=
  unfold bind, ret, raise, try_except, lift, print, time_time, int_time,
    set_credential, set_access_token, set_attrs, get_attrs,
    credential_get_token, any_Exception, requests_get, requests_put,
    requests_post, requests_send, _get_headers, raise_for_status,
    response_json, time_sleep, print_if_verbose, print_response_if_verbose,
    py_get, py_getitem, py_items, py_contains in *.

(** C8. [authenticate] asks the Azure CLI provider first; it asks the
    default provider exactly when the CLI provider raised
    [ClientAuthenticationError]; on any other exception of the CLI
    provider it reports the authentication failure and returns [False]
    with the default provider never asked. *)
Theorem authenticate_fallback_only_on_auth_error (env : Env) (self : Deployer) (w : World) :
  match get_token env AzureCliCredential with
  | Val t =>
      exists w', authenticate env self w = Ret true w'
                 /\ asked w' = AzureCliCredential :: asked w
  | Exn ClientAuthenticationError =>
      exists b w', authenticate env self w = Ret b w'
                 /\ asked w' = DefaultAzureCredential :: AzureCliCredential :: asked w
                 /\ b = match get_token env DefaultAzureCredential with
                        | Val _ => true
                        | Exn _ => false
                        end
  | Exn e =>
      exists w', authenticate env self w = Ret false w'
                 /\ asked w' = AzureCliCredential :: asked w
                 /\ printed w' =
                      Line "Please run 'az login' first or set up appropriate credentials"
                      :: LineE "Authentication failed: " e
                      :: Line "Authenticating with Azure..." :: printed w
  end.
Proof.
  unfold authenticate. unfold_m. cbn.
  destruct (get_token env AzureCliCredential) as [t|e] eqn:E.
  - eexists; split; reflexivity.
  - destruct e; cbn; try (eexists; repeat split; reflexivity).
    destruct (get_token env DefaultAzureCredential); cbn;
      do 2 eexists; repeat split; reflexivity.
Qed.

(** C6 (as amended). [check_resource_group_exists] sends one GET and
    returns [True] exactly for a reply with status 200; for every other
    status (404, but also 401, 403 and 5xx) and when the request raises a
    [RequestException] it returns [False]: no failure of the lookup is
    surfaced as an error. *)
Theorem check_resource_group_exists_spec (env : Env) (self : Deployer)
    (name : string) (w : World) :
  let rq := get_request (resource_group_url self name) w in
  let w' := after_request env rq w in
  match http_reply env (List.length (sent w)) rq with
  | Val r => check_resource_group_exists env self name w
             = Ret (Z.eqb (status_code r) 200) w'
  | Exn (RequestException x) =>
             check_resource_group_exists env self name w = Ret false w'
  | Exn e => check_resource_group_exists env self name w = Raise e w'
  end.
Proof.
  unfold check_resource_group_exists, get_request, after_request. unfold_m. cbn.
  destruct (http_reply env _ _) as [r|e]; [reflexivity|].
  destruct e; reflexivity.
Qed.

(** C6, the claim as stated fails: a lookup answered with status 500 and
    a lookup that cannot reach the server both make the check return the
    boolean [False], not an error. *)
Lemma check_resource_group_exists_swallows_failures :
  (exists w', check_resource_group_exists env_lookup_500 a_deployer "rg" (fresh_world 0)
              = Ret false w'
              /\ http_reply env_lookup_500 0
                   (get_request (resource_group_url a_deployer "rg") (fresh_world 0))
                 = reply_status 500)
  /\ (exists w', check_resource_group_exists env_offline a_deployer "rg" (fresh_world 0)
                 = Ret false w'
                 /\ http_reply env_offline 0
                      (get_request (resource_group_url a_deployer "rg") (fresh_world 0))
                    = Exn (RequestException None)).
Proof.
  split; eexists; split; reflexivity.
Qed.

(** C10. A what-if submission answered with status 202 and no [Location]
    header makes [validate_deployment] return [False]; the POST is the
    only request it sends, nothing is polled and nothing is slept. *)
Theorem validate_deployment_202_without_location (env : Env) (self : Deployer)
    (rg : string) (template parameters : json) (w : World) (r : Response) :
  let rq := mkRequest POST (whatif_url self rg (clock w / ticks_per_second))
              (req_headers (get_request "" w))
              (Some (deployment_body template parameters)) in
  http_reply env (List.length (sent w)) rq = Val r ->
  status_code r = 202 ->
  headers_get "Location" (headers r) = None ->
  exists w', validate_deployment env self rg template parameters w = Ret false w'
             /\ sent w' = rq :: sent w
             /\ slept w' = slept w.
Proof.
  intros rq Hr Hs Hl. subst rq.
  unfold validate_deployment. unfold_m. cbn in *.
  rewrite Hr. cbn. rewrite Hs. cbn. rewrite Hl.
  eexists; repeat split; reflexivity.
Qed.

Lemma validate_deployment_202_without_location_witness :
  exists w', validate_deployment env_202_bare a_deployer "rg" (JObj []) (JObj [])
               (fresh_world 0) = Ret false w'
             /\ List.length (sent w') = 1%nat.
Proof.
  destruct (validate_deployment_202_without_location env_202_bare a_deployer "rg"
              (JObj []) (JObj []) (fresh_world 0)
              (mkResponse 202 [] (Some (JObj []))))
    as [w' [H [Hs _]]]; try reflexivity.
  exists w'. split; [exact H | rewrite Hs; reflexivity].
Defined.

(** Unwrapping the entries of a wrapped mapping gives the mapping back. *)
Lemma for_each_unwrap (flat : list (string * json)) (w : World) :
  for_each (fun kv : string * json =>
              bind (py_get (snd kv) "value" JNull) (fun v => ret (fst kv, v)))
           (arm_wrap flat) w
  = Ret flat w.
Proof.
  induction flat as [|[k v] flat IH]; [reflexivity|].
  cbn [arm_wrap map for_each fst snd]. unfold bind at 1 2. cbn.
  unfold bind at 1. fold (arm_wrap flat). rewrite IH. reflexivity.
Qed.

(** C9. For a parameter document that is a mapping: when its
    ["parameters"] entry is a wrapped mapping [{name: {"value": v}}], the
    loader returns the flat mapping [{name: v}]; when it has no
    ["parameters"] key, the loader returns the document unchanged. *)
Theorem load_parameters_normalizes (env : Env) (path : string) (w : World)
    (kvs : list (string * json)) :
  read_json env path = Val (JObj kvs) ->
  (forall flat, lookup "parameters" kvs = Some (JObj (arm_wrap flat)) ->
                load_parameters env path w = Ret (JObj flat) w)
  /\ (lookup "parameters" kvs = None ->
      load_parameters env path w = Ret (JObj kvs) w).
Proof.
  intros Hdoc. split.
  - intros flat Hp. unfold load_parameters, try_except.
    unfold bind at 1. rewrite Hdoc. cbn [lift]. unfold ret at 1.
    unfold bind at 1. cbn [py_contains]. rewrite Hp. unfold ret at 1.
    unfold bind at 1. cbn [py_getitem]. rewrite Hp. unfold ret at 1.
    unfold bind at 1. cbn [py_items]. unfold ret at 1.
    unfold bind at 1. rewrite for_each_unwrap. reflexivity.
  - intros Hp. unfold load_parameters, try_except.
    unfold bind at 1. rewrite Hdoc. cbn [lift]. unfold ret at 1.
    unfold bind at 1. cbn [py_contains]. rewrite Hp. reflexivity.
Qed.

Lemma load_parameters_normalizes_witness :
  load_parameters (with_file (Val doc_wrapped) env_offline) "parameters.json"
    (fresh_world 0) = Ret doc_flat (fresh_world 0)
  /\ load_parameters (with_file (Val doc_flat) env_offline) "parameters.json"
       (fresh_world 0) = Ret doc_flat (fresh_world 0).
Proof.
  split.
  - apply (proj1 (load_parameters_normalizes
                    (with_file (Val doc_wrapped) env_offline) "parameters.json"
                    (fresh_world 0)
                    [("parameters", JObj [("x", JObj [("value", JNum 5)])])]
                    eq_refl)
             [("x", JNum 5)]).
    reflexivity.
  - apply (proj2 (load_parameters_normalizes
                    (with_file (Val doc_flat) env_offline) "parameters.json"
                    (fresh_world 0) [("x", JNum 5)] eq_refl)).
    reflexivity.
Defined.

(* ------------------------------------------------------------------ *)
(** *** Loops under a deadline *)

Section Deadline.
Context {S : Type}.
Variable body : S -> M (step S json).
Variable on_timeout : M json.
Variables start_time timeout poll_interval : Z.

(** More fuel never changes the result of a loop that has finished. *)
Lemma deadline_loop_fuel_S (fuel : nat) :
  forall s w,
    deadline_loop body on_timeout start_time timeout fuel s w <> Spin ->
    deadline_loop body on_timeout start_time timeout (Datatypes.S fuel) s w
    = deadline_loop body on_timeout start_time timeout fuel s w.
Proof.
  induction fuel as [|fuel IH]; intros s w H; [now elim H|].
  cbn [deadline_loop] in H.
  change (deadline_loop body on_timeout start_time timeout (Datatypes.S (Datatypes.S fuel)) s w)
    with (if Z.ltb (clock w - start_time) (timeout * ticks_per_second) then
            match body s w with
            | Ret (Return v) w' => Ret v w'
            | Ret (Continue s') w' =>
                deadline_loop body on_timeout start_time timeout (Datatypes.S fuel) s' w'
            | Raise e w' => Raise e w'
            | Spin => Spin
            end
          else on_timeout w).
  cbn [deadline_loop].
  destruct (Z.ltb _ _); [|reflexivity].
  destruct (body s w) as [[v|s'] w'|e w'|]; try reflexivity.
  apply IH. exact H.
Qed.

Lemma deadline_loop_fuel_le (fuel fuel' : nat) (s : S) (w : World) :
  (fuel <= fuel')%nat ->
  deadline_loop body on_timeout start_time timeout fuel s w <> Spin ->
  deadline_loop body on_timeout start_time timeout fuel' s w
  = deadline_loop body on_timeout start_time timeout fuel s w.
Proof.
  intros Hle H. induction Hle as [|m Hle IH]; [reflexivity|].
  rewrite deadline_loop_fuel_S; [exact IH|]. rewrite IH. exact H.
Qed.

(** What a pass through the body does to the request log and the clock;
    [good] holds of every value the body returns. *)
Variable good : json -> Prop.
Hypothesis body_progress : forall s w,
  match body s w with
  | Ret (Return v) w' => fetches w w' = 1 /\ good v
  | Ret (Continue _) w' =>
      fetches w w' = 1 /\ clock w + poll_interval * ticks_per_second <= clock w'
  | Raise _ w' => fetches w w' = 1
  | Spin => False
  end.
Hypothesis on_timeout_quiet : forall w,
  exists w', on_timeout w = Ret JNull w' /\ fetches w w' = 0.

(** Each fetch but the last is followed by a full interval inside the
    budget; a value returned is good or is the [None] of the time-out. *)
Lemma deadline_loop_fetches (fuel : nat) :
  forall s w,
    match deadline_loop body on_timeout start_time timeout fuel s w with
    | Ret v w' =>
        (fetches w w' = 0
         \/ (0 < fetches w w'
             /\ (fetches w w' - 1) * (poll_interval * ticks_per_second)
                < budget start_time timeout w))
        /\ (good v \/ v = JNull)
    | Raise _ w' =>
        0 < fetches w w'
        /\ (fetches w w' - 1) * (poll_interval * ticks_per_second)
           < budget start_time timeout w
    | Spin => True
    end.
Proof.
  induction fuel as [|fuel IH]; intros s w; [exact I|].
  cbn [deadline_loop].
  destruct (Z.ltb (clock w - start_time) (timeout * ticks_per_second)) eqn:Hc.
  - apply Z.ltb_lt in Hc.
    pose proof (body_progress s w) as Hb.
    destruct (body s w) as [[v|s'] w1|e w1|]; [| | |now elim Hb].
    + destruct Hb as [Hf Hg]. split; [right|left; exact Hg].
      rewrite Hf. unfold budget. lia.
    + destruct Hb as [Hf Hclk].
      specialize (IH s' w1).
      unfold budget, ticks_per_second in *.
      destruct (deadline_loop body on_timeout start_time timeout fuel s' w1)
        as [v w2|e w2|]; [| |exact I].
      * destruct IH as [Hn Hv]. split; [right|exact Hv].
        unfold fetches, budget in *. nia.
      * unfold fetches, budget in *. nia.
    + unfold budget. rewrite Hb. lia.
  - destruct (on_timeout_quiet w) as [w' [Ht Hf]]. rewrite Ht.
    split; [left; exact Hf | right; reflexivity].
Qed.

(** With one unit of fuel per interval of the budget, and one more, the
    loop finishes. *)
Lemma deadline_loop_returns (fuel : nat) :
  forall s w,
    budget start_time timeout w <= Z.of_nat fuel * (poll_interval * ticks_per_second) ->
    deadline_loop body on_timeout start_time timeout (Datatypes.S fuel) s w <> Spin.
Proof.
  induction fuel as [|fuel IH]; intros s w Hb.
  - cbn [deadline_loop].
    destruct (Z.ltb (clock w - start_time) (timeout * ticks_per_second)) eqn:Hc.
    + apply Z.ltb_lt in Hc. unfold budget in Hb. lia.
    + destruct (on_timeout_quiet w) as [w' [Ht _]]. rewrite Ht. discriminate.
  - change (deadline_loop body on_timeout start_time timeout
              (Datatypes.S (Datatypes.S fuel)) s w)
      with (if Z.ltb (clock w - start_time) (timeout * ticks_per_second) then
              match body s w with
              | Ret (Return v) w' => Ret v w'
              | Ret (Continue s') w' =>
                  deadline_loop body on_timeout start_time timeout (Datatypes.S fuel) s' w'
              | Raise e w' => Raise e w'
              | Spin => Spin
              end
            else on_timeout w).
    destruct (Z.ltb (clock w - start_time) (timeout * ticks_per_second)) eqn:Hc.
    + pose proof (body_progress s w) as Hp.
      destruct (body s w) as [[v|s'] w1|e w1|]; try discriminate; [|now elim Hp].
      destruct Hp as [_ Hclk]. apply IH.
      unfold budget, ticks_per_second in *. nia.
    + destruct (on_timeout_quiet w) as [w' [Ht _]]. rewrite Ht. discriminate.
Qed.
End Deadline.

(** Python's [==] against a string holds of that string only. *)
Lemma py_eq_str (s : json) (x : string) : py_eq s (JStr x) = true <-> s = JStr x.
Proof.
  destruct s; cbn; split; intros H; try discriminate.
  - apply String.eqb_eq in H. now subst.
  - injection H as ->. apply String.eqb_refl.
Qed.

Lemma is_terminal_In (s : json) : is_terminal s = true <-> In s terminal_states.
Proof.
  unfold is_terminal, py_in, terminal_states. rewrite existsb_exists. split.
  - intros [y [Hy He]]. cbn in Hy.
    destruct Hy as [<-|[<-|[<-|[]]]]; apply py_eq_str in He; subst; cbn; auto.
  - intros H. exists s. split; [exact H|].
    cbn in H. destruct H as [<-|[<-|[<-|[]]]]; reflexivity.
Qed.

(* ------------------------------------------------------------------ *)
(** *** One pass through each loop body, as a function of the reply *)

Local Arguments py_in : simpl never.
Local Arguments py_eq : simpl never.

Lemma poll_deployment_body_reply (env : Env) (u : string) (poll_interval : Z)
    (last_status : json) (w : World) :
  let rq := get_request u w in
  let w1 := after_request env rq w in
  poll_deployment_body env u poll_interval last_status w =
  match http_reply env (List.length (sent w)) rq with
  | Exn e =>
      if is_RequestException e
      then Ret (Return JNull) (after_print (poll_failed_message e) w1)
      else Raise e w1
  | Val r =>
      if is_error_status r
      then Ret (Return JNull)
               (after_print (poll_failed_message (RequestException (Some r))) w1)
      else
        match body r with
        | None => Ret (Return JNull)
                      (after_print (poll_failed_message (RequestException (Some r))) w1)
        | Some result =>
            match state_of result with
            | None => Raise AttributeError w1
            | Some s =>
                let w2 := if py_eq s last_status then w1
                          else after_print (status_message s) w1 in
                if is_terminal s then Ret (Return result) w2
                else if Z.ltb poll_interval 0 then Raise ValueError w2
                else Ret (Continue (if py_eq s last_status then last_status else s))
                         (after_sleep env poll_interval w2)
            end
        end
  end.
Proof.
  unfold poll_deployment_body, get_request, after_request, after_print,
    after_sleep, poll_failed_message, status_message, is_error_status,
    is_terminal, state_of.
  unfold_m. cbn.
  destruct (http_reply env _ _) as [r|e]; [|destruct e; reflexivity].
  cbn. destruct (Z.leb 400 (status_code r) && Z.ltb (status_code r) 600); [reflexivity|].
  cbn. destruct (body r) as [result|]; [|reflexivity].
  cbn. destruct result as [ | | | | |kvs]; try reflexivity.
  cbn. destruct (lookup "properties" kvs) as [p|]; cbn.
  - destruct p as [ | | | | |ps]; try reflexivity. cbn.
    destruct (lookup "provisioningState" ps) as [s|]; cbn;
      (destruct (py_eq _ last_status); cbn;
       destruct (py_in _ terminal_states); cbn; try reflexivity;
       destruct (Z.ltb poll_interval 0); reflexivity).
  - destruct (py_eq _ last_status); cbn;
      destruct (py_in _ terminal_states); cbn; try reflexivity;
      destruct (Z.ltb poll_interval 0); reflexivity.
Qed.

Lemma poll_async_body_reply (env : Env) (u : string) (poll_interval : Z) (w : World) :
  let rq := get_request u w in
  let w1 := after_request env rq w in
  poll_async_body env u poll_interval w =
  match http_reply env (List.length (sent w)) rq with
  | Exn e => if is_RequestException e then Ret (Return JNull) w1 else Raise e w1
  | Val r =>
      if Z.eqb (status_code r) 200 then
        match body r with
        | Some j => Ret (Return j) w1
        | None => Ret (Return JNull) w1
        end
      else if Z.eqb (status_code r) 202 then
        if Z.ltb poll_interval 0 then Raise ValueError w1
        else Ret (Continue tt) (after_sleep env poll_interval w1)
      else Ret (Return JNull) w1
  end.
Proof.
  unfold poll_async_body, get_request, after_request, after_sleep.
  unfold_m. cbn.
  destruct (http_reply env _ _) as [r|e]; [|destruct e; reflexivity].
  cbn. destruct (Z.eqb (status_code r) 200).
  - destruct (body r); reflexivity.
  - destruct (Z.eqb (status_code r) 202); [|reflexivity].
    cbn. destruct (Z.ltb poll_interval 0); reflexivity.
Qed.

(* ------------------------------------------------------------------ *)
(** *** The two loops are deadline loops *)

Lemma poll_deployment_loop_deadline (env : Env) (u : string)
    (start_time timeout poll_interval : Z) (fuel : nat) :
  forall last_status w,
    poll_deployment_loop env fuel u start_time timeout poll_interval last_status w
    = deadline_loop (poll_deployment_body env u poll_interval)
        (deployment_timed_out timeout) start_time timeout fuel last_status w.
Proof.
  induction fuel as [|fuel IH]; intros last w; [reflexivity|].
  cbn [poll_deployment_loop deadline_loop]. unfold bind at 1, time_time.
  destruct (Z.ltb _ _); [|reflexivity].
  unfold bind at 1.
  destruct (poll_deployment_body env u poll_interval last w) as [[v|l] w'|e w'|];
    try reflexivity.
  apply IH.
Qed.

Lemma poll_async_loop_deadline (env : Env) (u : string)
    (start_time timeout poll_interval : Z) (fuel : nat) :
  forall w,
    poll_async_loop env fuel u start_time timeout poll_interval w
    = deadline_loop (fun _ : unit => poll_async_body env u poll_interval)
        (ret JNull) start_time timeout fuel tt w.
Proof.
  induction fuel as [|fuel IH]; intros w; [reflexivity|].
  cbn [poll_async_loop deadline_loop]. unfold bind at 1, time_time.
  destruct (Z.ltb _ _); [|reflexivity].
  unfold bind at 1.
  destruct (poll_async_body env u poll_interval w) as [[v|[]] w'|e w'|];
    try reflexivity.
  apply IH.
Qed.

Lemma fetches_after_request (env : Env) (rq : Request) (w : World) :
  fetches w (after_request env rq w) = 1.
Proof. unfold fetches, after_request. cbn [sent List.length]. lia. Qed.

Lemma fetched_state_inv (r : Response) (result s : json) :
  fetched_state r = Some (result, s) ->
  is_error_status r = false /\ body r = Some result /\ state_of result = Some s.
Proof.
  unfold fetched_state. destruct (is_error_status r); [discriminate|].
  destruct (body r) as [j|]; [|discriminate].
  destruct (state_of j) as [t|] eqn:E; [|discriminate].
  intros H. injection H as -> ->. auto.
Qed.

(** The progress a pass of the deployment body makes. *)
Lemma poll_deployment_body_progress (env : Env) (u : string) (poll_interval : Z)
    (last_status : json) (w : World) :
  match poll_deployment_body env u poll_interval last_status w with
  | Ret (Return v) w' => fetches w w' = 1 /\ (terminal_document v \/ v = JNull)
  | Ret (Continue _) w' =>
      fetches w w' = 1 /\ clock w + poll_interval * ticks_per_second <= clock w'
  | Raise _ w' => fetches w w' = 1
  | Spin => False
  end.
Proof.
  rewrite poll_deployment_body_reply.
  pose proof (fetches_after_request env (get_request u w) w) as Hf.
  destruct (http_reply env _ _) as [r|e].
  - destruct (is_error_status r); [split; [exact Hf|now right]|].
    destruct (body r) as [result|]; [|split; [exact Hf|now right]].
    destruct (state_of result) as [s|] eqn:Hs; [|exact Hf].
    destruct (is_terminal s) eqn:Ht.
    + split; [destruct (py_eq s last_status); exact Hf|].
      left. exists s. auto.
    + destruct (Z.ltb poll_interval 0) eqn:Hi.
      * destruct (py_eq s last_status); exact Hf.
      * apply Z.ltb_ge in Hi.
        destruct (py_eq s last_status); (split; [exact Hf|]);
          unfold after_sleep, after_request, after_print; cbn [clock]; lia.
  - destruct (is_RequestException e); [split; [exact Hf|now right]|exact Hf].
Qed.

Lemma poll_async_body_progress (env : Env) (u : string) (poll_interval : Z) (w : World) :
  match poll_async_body env u poll_interval w with
  | Ret (Return v) w' => fetches w w' = 1 /\ True
  | Ret (Continue _) w' =>
      fetches w w' = 1 /\ clock w + poll_interval * ticks_per_second <= clock w'
  | Raise _ w' => fetches w w' = 1
  | Spin => False
  end.
Proof.
  rewrite poll_async_body_reply.
  pose proof (fetches_after_request env (get_request u w) w) as Hf.
  destruct (http_reply env _ _) as [r|e].
  - destruct (Z.eqb (status_code r) 200).
    + destruct (body r); split; auto.
    + destruct (Z.eqb (status_code r) 202); [|split; auto].
      destruct (Z.ltb poll_interval 0) eqn:Hi; [exact Hf|].
      apply Z.ltb_ge in Hi. split; [exact Hf|].
      unfold after_sleep, after_request; cbn [clock]; lia.
  - destruct (is_RequestException e); [split; auto|exact Hf].
Qed.

(* ------------------------------------------------------------------ *)
(** *** The poll loops: claims *)

(** C1. In both poll loops, when the status fetch of a pass raises a
    [RequestException] (from [requests.get], or from [raise_for_status]
    in the deployment poller), the loop returns [None] at once: the failed
    request is the last one sent, no sleep follows, and the deployment
    poller prints the failure. *)
Theorem poll_loops_fail_fast (env : Env) (fuel : nat) (u : string)
    (start_time timeout poll_interval : Z) (last_status : json) (w : World) :
  clock w - start_time < timeout * ticks_per_second ->
  let rq := get_request u w in
  let w1 := after_request env rq w in
  (forall e,
      http_reply env (List.length (sent w)) rq = Exn e ->
      is_RequestException e = true ->
      poll_deployment_loop env (S fuel) u start_time timeout poll_interval last_status w
      = Ret JNull (after_print (poll_failed_message e) w1)
      /\ poll_async_loop env (S fuel) u start_time timeout poll_interval w
         = Ret JNull w1)
  /\ (forall r,
         http_reply env (List.length (sent w)) rq = Val r ->
         is_error_status r = true ->
         poll_deployment_loop env (S fuel) u start_time timeout poll_interval last_status w
         = Ret JNull (after_print (poll_failed_message (RequestException (Some r))) w1))
  /\ sent w1 = rq :: sent w /\ slept w1 = slept w.
Proof.
  intros Hc rq w1. apply Z.ltb_lt in Hc.
  split; [|split; [|split; reflexivity]].
  - intros e Hr He. split.
    + cbn [poll_deployment_loop]. unfold bind at 1, time_time. rewrite Hc.
      unfold bind at 1. rewrite poll_deployment_body_reply.
      fold rq. rewrite Hr, He. reflexivity.
    + cbn [poll_async_loop]. unfold bind at 1, time_time. rewrite Hc.
      unfold bind at 1. rewrite poll_async_body_reply.
      fold rq. rewrite Hr, He. reflexivity.
  - intros r Hr He.
    cbn [poll_deployment_loop]. unfold bind at 1, time_time. rewrite Hc.
    unfold bind at 1. rewrite poll_deployment_body_reply.
    fold rq. rewrite Hr, He. reflexivity.
Qed.

Lemma poll_loops_fail_fast_witness :
  _poll_deployment env_offline 181 a_deployer "rg" "d" 1800 10 (fresh_world 0)
  = Ret JNull
      (after_print (poll_failed_message (RequestException None))
         (after_request env_offline
            (get_request (deployment_url a_deployer "rg" "d") (fresh_world 0))
            (fresh_world 0)))
  /\ _poll_async_operation env_offline 61 "https://follow.up" 300 5 (fresh_world 0)
     = Ret JNull
         (after_request env_offline (get_request "https://follow.up" (fresh_world 0))
            (fresh_world 0)).
Proof.
  split.
  - apply (proj1 (poll_loops_fail_fast env_offline 180
                    (deployment_url a_deployer "rg" "d") 0 1800 10 JNull
                    (fresh_world 0) eq_refl)
             (RequestException None) eq_refl eq_refl).
  - apply (proj1 (poll_loops_fail_fast env_offline 60 "https://follow.up" 0 300 5 JNull
                    (fresh_world 0) eq_refl)
             (RequestException None) eq_refl eq_refl).
Defined.



(** C5. The location-header poller, with its default arguments (deadline
    300 s, interval 5 s): a pass that starts after the deadline returns
    [None] without a request; before the deadline, a reply with status 202
    makes the loop sleep 5 seconds and go round again, a reply with status
    200 ends it with the payload of the response, and a reply with any
    other status ends it with [None]. *)
Theorem poll_async_operation_protocol (env : Env) (fuel : nat) (u : string)
    (start_time : Z) (w : World) :
  let rq := get_request u w in
  let w1 := after_request env rq w in
  let loop := fun n => poll_async_loop env n u start_time
                         POLL_ASYNC_TIMEOUT POLL_ASYNC_INTERVAL in
  POLL_ASYNC_TIMEOUT = 300 /\ POLL_ASYNC_INTERVAL = 5
  /\ (300 * ticks_per_second <= clock w - start_time -> loop (S fuel) w = Ret JNull w)
  /\ (clock w - start_time < 300 * ticks_per_second ->
      forall r, http_reply env (List.length (sent w)) rq = Val r ->
        (status_code r = 202 ->
         loop (S fuel) w = loop fuel (after_sleep env 5 w1)
         /\ slept (after_sleep env 5 w1) = 5 :: slept w
         /\ clock w + 5 * ticks_per_second <= clock (after_sleep env 5 w1))
        /\ (status_code r = 200 -> forall j, body r = Some j ->
            loop (S fuel) w = Ret j w1)
        /\ (status_code r <> 200 -> status_code r <> 202 ->
            loop (S fuel) w = Ret JNull w1)).
Proof.
  intros rq w1 loop. subst loop. unfold POLL_ASYNC_TIMEOUT, POLL_ASYNC_INTERVAL.
  split; [reflexivity|]. split; [reflexivity|]. split.
  - intros Hc. apply Z.ltb_ge in Hc.
    cbn [poll_async_loop]. unfold bind at 1, time_time. rewrite Hc. reflexivity.
  - intros Hc r Hr. apply Z.ltb_lt in Hc.
    assert (Hloop : poll_async_loop env (S fuel) u start_time 300 5 w =
                    match poll_async_body env u 5 w with
                    | Ret (Return v) w' => Ret v w'
                    | Ret (Continue _) w' => poll_async_loop env fuel u start_time 300 5 w'
                    | Raise e w' => Raise e w'
                    | Spin => Spin
                    end).
    { cbn [poll_async_loop]. unfold bind at 1, time_time. rewrite Hc.
      unfold bind at 1.
      destruct (poll_async_body env u 5 w) as [[v|[]] w'|e w'|]; reflexivity. }
    rewrite Hloop, poll_async_body_reply. fold rq. rewrite Hr. fold w1.
    split; [|split].
    + intros Hs. rewrite Hs. cbn [Z.eqb Pos.eqb Z.ltb Z.compare].
      split; [reflexivity|]. split; [reflexivity|].
      unfold after_sleep, w1, after_request; cbn [clock]. lia.
    + intros Hs j Hj. rewrite Hs, Hj. reflexivity.
    + intros H200 H202. apply Z.eqb_neq in H200, H202. rewrite H200, H202. reflexivity.
Qed.

Lemma poll_async_operation_protocol_witness :
  (* 200: the payload comes back *)
  poll_async_loop env_resolved 1 "https://follow.up" 0 300 5 (fresh_world 0)
  = Ret a_preview
      (after_request env_resolved (get_request "https://follow.up" (fresh_world 0))
         (fresh_world 0))
  (* 202: five seconds of sleep, then the next pass *)
  /\ poll_async_loop env_202_bare 2 "https://follow.up" 0 300 5 (fresh_world 0)
     = poll_async_loop env_202_bare 1 "https://follow.up" 0 300 5
         (after_sleep env_202_bare 5
            (after_request env_202_bare
               (get_request "https://follow.up" (fresh_world 0)) (fresh_world 0)))
  (* 500: no payload *)
  /\ poll_async_loop env_lookup_500 1 "https://follow.up" 0 300 5 (fresh_world 0)
     = Ret JNull
         (after_request env_lookup_500
            (get_request "https://follow.up" (fresh_world 0)) (fresh_world 0)).
Proof.
  assert (Hc : clock (fresh_world 0) - 0 < 300 * ticks_per_second) by reflexivity.
  split; [|split].
  - destruct (poll_async_operation_protocol env_resolved 0 "https://follow.up" 0
                (fresh_world 0)) as [_ [_ [_ H]]].
    destruct (H Hc _ eq_refl) as [_ [H200 _]].
    exact (H200 eq_refl a_preview eq_refl).
  - destruct (poll_async_operation_protocol env_202_bare 1 "https://follow.up" 0
                (fresh_world 0)) as [_ [_ [_ H]]].
    destruct (H Hc _ eq_refl) as [H202 _].
    exact (proj1 (H202 eq_refl)).
  - destruct (poll_async_operation_protocol env_lookup_500 0 "https://follow.up" 0
                (fresh_world 0)) as [_ [_ [_ H]]].
    destruct (H Hc _ eq_refl) as [_ [_ Hother]].
    apply Hother; discriminate.
Defined.

Lemma deployment_timed_out_quiet (timeout : Z) (w : World) :
  exists w', deployment_timed_out timeout w = Ret JNull w' /\ fetches w w' = 0.
Proof.
  exists (after_print (timed_out_message timeout) w). split; [reflexivity|].
  unfold fetches, after_print. cbn [sent]. lia.
Qed.

(** [n] fetches, each but the last followed by a full interval inside the
    budget, are at most [ceil(timeout / interval)]. *)
Lemma fetches_le_ceil_div (n timeout poll_interval : Z) :
  0 < poll_interval -> 0 <= timeout ->
  n = 0 \/ (0 < n /\ (n - 1) * (poll_interval * ticks_per_second)
                     < timeout * ticks_per_second) ->
  n <= ceil_div timeout poll_interval.
Proof.
  intros Hi Ht H. unfold ceil_div, ticks_per_second in *.
  assert (Hc : (timeout - 1) / poll_interval + 1
               = (timeout + poll_interval - 1) / poll_interval).
  { rewrite <- Z.div_add by lia. f_equal. lia. }
  rewrite <- Hc.
  destruct H as [->|[Hn H]].
  - assert (-1 <= (timeout - 1) / poll_interval); [|lia].
    apply Z.div_le_lower_bound; lia.
  - assert (n - 1 <= (timeout - 1) / poll_interval); [|lia].
    apply Z.div_le_lower_bound; nia.
Qed.

Lemma poll_deployment_loop_S (env : Env) (fuel : nat) (u : string)
    (start_time timeout poll_interval : Z) (last_status : json) (w : World) :
  poll_deployment_loop env (S fuel) u start_time timeout poll_interval last_status w
  = if Z.ltb (clock w - start_time) (timeout * ticks_per_second) then
      match poll_deployment_body env u poll_interval last_status w with
      | Ret (Return v) w' => Ret v w'
      | Ret (Continue last_status') w' =>
          poll_deployment_loop env fuel u start_time timeout poll_interval
            last_status' w'
      | Raise e w' => Raise e w'
      | Spin => Spin
      end
    else Ret JNull (after_print (timed_out_message timeout) w).
Proof.
  cbn [poll_deployment_loop]. unfold bind at 1, time_time.
  destruct (Z.ltb _ _); [|reflexivity].
  unfold bind at 1.
  destruct (poll_deployment_body env u poll_interval last_status w)
    as [[v|l] w'|e w'|]; reflexivity.
Qed.

(** While every reply carries a transient state, the deployment loop can
    only end through its time-out exit, after the deadline. *)
Lemma poll_deployment_loop_transient (env : Env) (u : string)
    (start_time timeout poll_interval : Z) :
  0 <= poll_interval ->
  (forall n rq, transient_reply (http_reply env n rq)) ->
  forall fuel last_status w,
    poll_deployment_loop env fuel u start_time timeout poll_interval last_status w = Spin
    \/ exists w0,
        poll_deployment_loop env fuel u start_time timeout poll_interval last_status w
        = Ret JNull (after_print (timed_out_message timeout) w0)
        /\ timeout * ticks_per_second <= clock w0 - start_time.
Proof.
  intros Hi Hall.
  assert (Hi' : Z.ltb poll_interval 0 = false) by now apply Z.ltb_ge.
  induction fuel as [|fuel IH]; intros last w; [now left|].
  rewrite poll_deployment_loop_S.
  destruct (Z.ltb (clock w - start_time) (timeout * ticks_per_second)) eqn:Hc.
  - rewrite poll_deployment_body_reply.
    destruct (Hall (List.length (sent w)) (get_request u w))
      as [r [result [s [Hr [Hf Ht]]]]].
    destruct (fetched_state_inv r result s Hf) as [He [Hb Hs]].
    rewrite Hr, He, Hb, Hs. cbv zeta. rewrite Ht, Hi'. apply IH.
  - right. exists w. split; [reflexivity|]. apply Z.ltb_ge in Hc. exact Hc.
Qed.

(** C2. The resource-status poller with its default arguments (deadline
    1800 s, interval 10 s) returns, and sends at most
    [ceil(1800 / 10) = 180] status requests.  A document it returns
    carries a terminal state: it never returns a transient one.  When
    every reply carries a transient state, it prints the time-out and
    returns [None], the deadline having passed. *)
Theorem poll_deployment_bounded (env : Env) (fuel : nat) (self : Deployer)
    (rg name : string) (w : World) :
  (enough_fuel POLL_DEPLOYMENT_TIMEOUT POLL_DEPLOYMENT_INTERVAL <= fuel)%nat ->
  let run := _poll_deployment env fuel self rg name
               POLL_DEPLOYMENT_TIMEOUT POLL_DEPLOYMENT_INTERVAL w in
  ceil_div 1800 10 = 180
  /\ match run with
     | Ret v w' =>
         fetches w w' <= ceil_div POLL_DEPLOYMENT_TIMEOUT POLL_DEPLOYMENT_INTERVAL
         /\ (terminal_document v \/ v = JNull)
     | Raise _ w' =>
         fetches w w' <= ceil_div POLL_DEPLOYMENT_TIMEOUT POLL_DEPLOYMENT_INTERVAL
     | Spin => False
     end
  /\ ((forall n rq, transient_reply (http_reply env n rq)) ->
      exists w0, run = Ret JNull (after_print (timed_out_message 1800) w0)
                 /\ 1800 * ticks_per_second <= clock w0 - clock w).
Proof.
  intros Hfuel run. subst run.
  unfold POLL_DEPLOYMENT_TIMEOUT, POLL_DEPLOYMENT_INTERVAL in *.
  change (_poll_deployment env fuel self rg name 1800 10 w)
    with (poll_deployment_loop env fuel (deployment_url self rg name)
            (clock w) 1800 10 JNull w).
  set (u := deployment_url self rg name).
  change (enough_fuel 1800 10) with 181%nat in *.
  assert (Hret : deadline_loop (poll_deployment_body env u 10)
                   (deployment_timed_out 1800) (clock w) 1800
                   181 JNull w <> Spin).
  { apply (deadline_loop_returns (poll_deployment_body env u 10)
             (deployment_timed_out 1800) (clock w) 1800 10
             (fun v => terminal_document v \/ v = JNull)
             (fun s w0 => poll_deployment_body_progress env u 10 s w0)
             (deployment_timed_out_quiet 1800) 180 JNull w).
    unfold budget, ticks_per_second. lia. }
  assert (Heq : poll_deployment_loop env fuel u (clock w) 1800 10 JNull w
                = deadline_loop (poll_deployment_body env u 10)
                    (deployment_timed_out 1800) (clock w) 1800
                    181 JNull w).
  { rewrite poll_deployment_loop_deadline.
    apply deadline_loop_fuel_le; assumption. }
  split; [reflexivity|]. split.
  - rewrite Heq.
    pose proof (deadline_loop_fetches (poll_deployment_body env u 10)
                  (deployment_timed_out 1800) (clock w) 1800 10
                  (fun v => terminal_document v \/ v = JNull)
                  (fun s w0 => poll_deployment_body_progress env u 10 s w0)
                  (deployment_timed_out_quiet 1800)
                  181%nat JNull w) as Hn.
    destruct (deadline_loop _ _ _ _ _ _ w) as [v w'|e w'|]; [| |now elim Hret].
    + destruct Hn as [Hn Hv]. split; [|tauto].
      apply fetches_le_ceil_div; [lia|lia|].
      unfold budget in Hn.
      replace (1800 * ticks_per_second - (clock w - clock w))
        with (1800 * ticks_per_second) in Hn by lia.
      exact Hn.
    + apply fetches_le_ceil_div; [lia|lia|]. right.
      unfold budget in Hn.
      replace (1800 * ticks_per_second - (clock w - clock w))
        with (1800 * ticks_per_second) in Hn by lia.
      exact Hn.
  - intros Hall.
    destruct (poll_deployment_loop_transient env u (clock w) 1800 10 ltac:(lia) Hall
                fuel JNull w) as [Hspin|Hout].
    + rewrite Heq in Hspin. now elim Hret.
    + exact Hout.
Qed.

Lemma poll_deployment_bounded_witness :
  exists w0,
    _poll_deployment env_running 181 a_deployer "rg" "d" 1800 10 (fresh_world 0)
    = Ret JNull (after_print (timed_out_message 1800) w0)
    /\ 1800 * ticks_per_second <= clock w0 - 0.
Proof.
  destruct (poll_deployment_bounded env_running 181 a_deployer "rg" "d"
              (fresh_world 0) (le_n 181)) as [_ [_ H]].
  apply H. intros n rq.
  exists (mkResponse 200 []
            (Some (JObj [("properties", JObj [("provisioningState", JStr "Running")])]))).
  do 2 eexists. repeat split; reflexivity.
Defined.

Lemma poll_async_loop_S (env : Env) (fuel : nat) (u : string)
    (start_time timeout poll_interval : Z) (w : World) :
  poll_async_loop env (S fuel) u start_time timeout poll_interval w
  = if Z.ltb (clock w - start_time) (timeout * ticks_per_second) then
      match poll_async_body env u poll_interval w with
      | Ret (Return v) w' => Ret v w'
      | Ret (Continue _) w' =>
          poll_async_loop env fuel u start_time timeout poll_interval w'
      | Raise e w' => Raise e w'
      | Spin => Spin
      end
    else Ret JNull w.
Proof.
  cbn [poll_async_loop]. unfold bind at 1, time_time.
  destruct (Z.ltb _ _); [|reflexivity].
  unfold bind at 1.
  destruct (poll_async_body env u poll_interval w) as [[v|[]] w'|e w'|]; reflexivity.
Qed.

(** C3, the claim as stated fails: the deployment poller returns the same
    [None] when it times out (the first reply took the whole budget) and
    when a status request fails; the location-header poller returns the
    same [None] when it times out, when the request fails and when the
    reply has status 500. *)
Lemma timeout_value_is_the_failure_value :
  (exists w_timeout w_failed,
      _poll_deployment env_slow 181 a_deployer "rg" "d" 1800 10 (fresh_world 0)
      = Ret JNull w_timeout
      /\ hd_error (printed w_timeout) = Some (timed_out_message 1800)
      /\ _poll_deployment env_offline 181 a_deployer "rg" "d" 1800 10 (fresh_world 0)
         = Ret JNull w_failed
      /\ hd_error (printed w_failed)
         = Some (poll_failed_message (RequestException None)))
  /\ (exists w_timeout w_failed w_500,
         _poll_async_operation env_slow_pending 61 "https://follow.up" 300 5
           (fresh_world 0) = Ret JNull w_timeout
         /\ 300 * ticks_per_second <= clock w_timeout
         /\ _poll_async_operation env_offline 61 "https://follow.up" 300 5
              (fresh_world 0) = Ret JNull w_failed
         /\ _poll_async_operation env_lookup_500 61 "https://follow.up" 300 5
              (fresh_world 0) = Ret JNull w_500).
Proof.
  split.
  - do 2 eexists. split; [vm_compute; reflexivity|].
    split; [vm_compute; reflexivity|].
    split; vm_compute; reflexivity.
  - do 3 eexists. split; [vm_compute; reflexivity|].
    split; [vm_compute; discriminate|].
    split; vm_compute; reflexivity.
Qed.

Lemma state_of_not_None (v s : json) : state_of v = Some s -> v <> JNull.
Proof. intros H ->. discriminate. Qed.

(** C3 (as amended).  A pass that starts after the deadline makes both
    pollers return [None].  In the deployment poller a terminal state,
    [Succeeded] as well as [Failed] and [Canceled], returns the status
    document, which is not [None]; a failed request returns the same
    [None] as the deadline.  In the location-header poller a 200 reply
    returns its payload, and a failed request or a reply with another
    status than 200 and 202 returns the same [None] as the deadline. *)
Theorem poll_return_values (env : Env) (fuel : nat) (u : string)
    (start_time timeout poll_interval : Z) (last_status : json) (w : World) :
  let rq := get_request u w in
  let w1 := after_request env rq w in
  let deployment := poll_deployment_loop env (S fuel) u start_time timeout
                      poll_interval last_status w in
  let operation := poll_async_loop env (S fuel) u start_time timeout
                     poll_interval w in
  (timeout * ticks_per_second <= clock w - start_time ->
   deployment = Ret JNull (after_print (timed_out_message timeout) w)
   /\ operation = Ret JNull w)
  /\ (clock w - start_time < timeout * ticks_per_second ->
      (forall r result s,
          http_reply env (List.length (sent w)) rq = Val r ->
          fetched_state r = Some (result, s) ->
          In s terminal_states ->
          result <> JNull /\ exists w', deployment = Ret result w')
      /\ (forall e,
             http_reply env (List.length (sent w)) rq = Exn e ->
             is_RequestException e = true ->
             deployment = Ret JNull (after_print (poll_failed_message e) w1)
             /\ operation = Ret JNull w1)
      /\ (forall r,
             http_reply env (List.length (sent w)) rq = Val r ->
             (status_code r = 200 -> forall j, body r = Some j ->
              operation = Ret j w1)
             /\ (status_code r <> 200 -> status_code r <> 202 ->
                 operation = Ret JNull w1))).
Proof.
  intros rq w1 deployment operation. subst deployment operation.
  rewrite poll_deployment_loop_S, poll_async_loop_S. split.
  - intros Hc. apply Z.ltb_ge in Hc. rewrite Hc. split; reflexivity.
  - intros Hc. apply Z.ltb_lt in Hc. rewrite Hc.
    rewrite poll_deployment_body_reply, poll_async_body_reply. fold rq. fold w1.
    split; [|split].
    + intros r result s Hr Hf Hin.
      destruct (fetched_state_inv r result s Hf) as [He [Hb Hs]].
      apply is_terminal_In in Hin.
      split; [exact (state_of_not_None result s Hs)|].
      rewrite Hr, He, Hb, Hs. cbv zeta. rewrite Hin. eauto.
    + intros e Hr He. rewrite Hr, He. split; reflexivity.
    + intros r Hr. rewrite Hr. split.
      * intros Hs j Hj. rewrite Hs, Hj. reflexivity.
      * intros H200 H202. apply Z.eqb_neq in H200, H202.
        rewrite H200, H202. reflexivity.
Qed.

Lemma poll_return_values_witness :
  poll_deployment_loop env_offline 1 "u" 0 1800 10 JNull (fresh_world 1800000)
  = Ret JNull (after_print (timed_out_message 1800) (fresh_world 1800000))
  /\ poll_deployment_loop env_offline 1 "u" 0 1800 10 JNull (fresh_world 0)
     = Ret JNull
         (after_print (poll_failed_message (RequestException None))
            (after_request env_offline (get_request "u" (fresh_world 0))
               (fresh_world 0))).
Proof.
  split.
  - apply (proj1 (poll_return_values env_offline 0 "u" 0 1800 10 JNull
                    (fresh_world 1800000))).
    vm_compute. discriminate.
  - destruct (poll_return_values env_offline 0 "u" 0 1800 10 JNull (fresh_world 0))
      as [_ H].
    destruct (H eq_refl) as [_ [Hfail _]].
    exact (proj1 (Hfail (RequestException None) eq_refl eq_refl)).
Defined.

(* ------------------------------------------------------------------ *)
(** *** The command-line driver *)

(** C7, evaluated where it fails.  In what-if mode the validation request
    is refused with status 403: [validate_deployment] reports the failure
    and returns [False], and [main] still returns 0.  With the same
    refusal on the deployment path [main] returns 1. *)
Theorem main_what_if_failure_exits_zero :
  (exists w', main env_submission_refused args_what_if (fresh_world 0) = Ret 0 w'
              /\ hd_error (printed w')
                 = Some (LineE "Deployment validation failed: "
                           (RequestException
                              (Some (mkResponse 403 [] (Some (JObj [])))))))
  /\ exit_status (main env_submission_refused args_what_if (fresh_world 0)) = Some 0
  /\ exit_status (main env_submission_refused args_deploy (fresh_world 0)) = Some 1.
Proof.
  split; [eexists; split; vm_compute; reflexivity|].
  split; vm_compute; reflexivity.
Qed.

(* ------------------------------------------------------------------ *)
(** *** Whole runs *)

(** A deployment that succeeds: three status requests ten seconds apart,
    exit status 0. *)
Example deployment_run :
  exists w', main env_deployment args_deploy (fresh_world 0) = Ret 0 w'
             /\ slept w' = [10; 10]
             /\ List.length (sent w') = 7%nat.
Proof.
  eexists. split; [vm_compute; reflexivity|].
  split; vm_compute; reflexivity.
Qed.

(** A what-if that resolves: two pending answers five seconds apart, then
    the preview. *)
Example what_if_run :
  exists w', validate_deployment env_what_if a_deployer "rg" (JObj []) (JObj [])
               (fresh_world 0) = Ret true w'
             /\ slept w' = [5; 5]
             /\ List.length (sent w') = 4%nat.
Proof.
  eexists. split; [vm_compute; reflexivity|].
  split; vm_compute; reflexivity.
Qed.

(** The CLI provider fails with an error that is not an authentication
    error: the default provider is not asked. *)
Example authenticate_without_fallback :
  exists w', authenticate env_cli_broken a_deployer (fresh_world 0) = Ret false w'
             /\ asked w' = [AzureCliCredential].
Proof. eexists. split; vm_compute; reflexivity. Qed.

(* ================================================================== *)
(** ** Further properties of the deployer *)

(** X1. [authenticate] sends no request.  Whenever it returns [True], the
    token stored is the one a provider issued, and [_get_headers] then
    yields [Authorization: Bearer <token>]; whenever it returns [False],
    the stored token is left as it was.  Nothing is said of a run that an
    exception ends. *)
Theorem authenticate_stores_token (env : Env) (self : Deployer) (w : World) :
  match authenticate env self w with
  | Ret b w' =>
      sent w' = sent w
      /\ (if b then
            exists p t,
              get_token env p = Val t
              /\ credential (attrs w') = Some p
              /\ access_token (attrs w') = Some t
              /\ _get_headers w' = Ret (bearer_headers t) w'
          else access_token (attrs w') = access_token (attrs w))
  | Raise _ _ => True
  | Spin => False
  end.
Proof.
  unfold authenticate, bearer_headers. unfold_m. cbn.
  destruct (get_token env AzureCliCredential) as [t|e] eqn:E; cbn.
  - split; [reflexivity|].
    exists AzureCliCredential, t. cbn. auto.
  - destruct e; cbn; try (split; reflexivity).
    destruct (get_token env DefaultAzureCredential) as [t|e] eqn:E'; cbn.
    + split; [reflexivity|].
      exists DefaultAzureCredential, t. cbn. auto.
    + split; reflexivity.
Qed.

(** X2. [create_resource_group] sends one PUT with the body
    [{"location": location}] and sleeps and polls nothing.  Whenever it
    returns, the value is [True] exactly when the reply has a status
    outside 400..599 (so a group that exists already is no failure), and
    [False] when the reply has an error status or the request raised a
    [RequestException].  No [RequestException] leaves it. *)
Theorem create_resource_group_result (env : Env) (self : Deployer)
    (name location : string) (w : World) :
  let rq := create_request self name location w in
  match create_resource_group env self name location w with
  | Ret b w' =>
      sent w' = rq :: sent w
      /\ slept w' = slept w
      /\ (b = true <-> exists r, http_reply env (List.length (sent w)) rq = Val r
                                 /\ is_error_status r = false)
  | Raise e _ => is_RequestException e = false
  | Spin => False
  end.
Proof.
  intros rq. subst rq.
  unfold create_resource_group, create_request, get_request, is_error_status.
  unfold_m. cbn.
  destruct (http_reply env _ _) as [r|e0] eqn:Hr; cbn.
  - destruct (Z.leb 400 (status_code r) && Z.ltb (status_code r) 600) eqn:Hs; cbn.
    + destruct (verbose self); cbn;
        (split; [reflexivity|]; split; [reflexivity|]);
        (split; [discriminate|]); intros [r' [Hv Hf]];
        injection Hv as <-; congruence.
    + split; [reflexivity|]. split; [reflexivity|]. split; [eauto|reflexivity].
  - destruct e0 as [x| | | | | |]; cbn; try reflexivity.
    destruct x; destruct (verbose self); cbn;
      (split; [reflexivity|]; split; [reflexivity|]);
      (split; [discriminate|]); intros [r' [Hv _]]; discriminate.
Qed.

Lemma create_resource_group_result_witness :
  exists w', create_resource_group env_submission_refused a_deployer "rg" "eastus"
               (fresh_world 0) = Ret false w'
             /\ List.length (sent w') = 1%nat.
Proof.
  pose proof (create_resource_group_result env_submission_refused a_deployer "rg"
                "eastus" (fresh_world 0)) as H.
  assert (exists b w', create_resource_group env_submission_refused a_deployer "rg"
                         "eastus" (fresh_world 0) = Ret b w')
    as (b & w' & E) by (do 2 eexists; vm_compute; reflexivity).
  cbv zeta in H. rewrite E in H. destruct H as [Hs [_ Hb]].
  exists w'. split; [|rewrite Hs; reflexivity].
  rewrite E. destruct b; [|reflexivity].
  destruct (proj1 Hb eq_refl) as [r [Hr Hf]].
  injection Hr as <-. discriminate Hf.
Defined.

(** X3. [compile_bicep] sends no request.  Whenever it returns, the
    value is the template exactly when the build succeeded and its output
    parsed; when the build failed or the output is not JSON the value is
    [None].  Nothing is said of a run that an exception ends. *)
Theorem compile_bicep_result (env : Env) (self : Deployer) (file : string) (w : World) :
  match compile_bicep env self file w with
  | Ret v w' =>
      sent w' = sent w
      /\ (forall out t, az_bicep_build env file = Val out ->
                        json_loads env out = Val t -> v = t)
      /\ ((forall out, az_bicep_build env file <> Val out) -> v = JNull)
      /\ (forall out e, az_bicep_build env file = Val out ->
                        json_loads env out = Exn e -> v = JNull)
  | Raise _ _ => True
  | Spin => False
  end.
Proof.
  unfold compile_bicep. unfold_m. cbn.
  destruct (az_bicep_build env file) as [out|e] eqn:Hb; cbn.
  - destruct (json_loads env out) as [t|e] eqn:Hl; cbn.
    + split; [reflexivity|].
      split; [|split].
      * intros out' t' Ho Ht. injection Ho as <-. congruence.
      * intros Hno. now elim (Hno out).
      * intros out' e' Ho He. injection Ho as <-. congruence.
    + destruct e; cbn;
        (split; [reflexivity|]; split; [|split]);
        try (intros out' t' Ho Ht; injection Ho as <-; congruence);
        try (intros; reflexivity).
  - destruct e; cbn;
      (split; [reflexivity|]; split; [|split]);
      try (intros out' t' Ho Ht; discriminate);
      try (intros; reflexivity).
Qed.

(** X4. [get_deployment_outputs] sends one GET to the deployment URL.
    From a document without ["properties"], or whose properties have no
    ["outputs"], it returns the empty dict: missing outputs are no
    error.  When the request fails it returns [None].  A JSON body that
    is not an object makes [AttributeError] escape. *)
Theorem get_deployment_outputs_result (env : Env) (self : Deployer)
    (rg name : string) (w : World) :
  let rq := get_request (deployment_url self rg name) w in
  let w1 := after_request env rq w in
  let reply := http_reply env (List.length (sent w)) rq in
  (forall kvs ps,
      ok_reply reply (JObj kvs) ->
      get_or_empty "properties" kvs = JObj ps ->
      get_deployment_outputs env self rg name w = Ret (get_or_empty "outputs" ps) w1)
  /\ (failed_reply reply ->
      exists w', get_deployment_outputs env self rg name w = Ret JNull w'
                 /\ sent w' = rq :: sent w)
  /\ (forall j, ok_reply reply j -> (forall kvs, j <> JObj kvs) ->
      get_deployment_outputs env self rg name w = Raise AttributeError w1).
Proof.
  intros rq w1 reply. subst rq w1 reply.
  unfold get_deployment_outputs, get_request, after_request, ok_reply,
    failed_reply, get_or_empty, is_error_status.
  unfold_m. cbn.
  split; [|split].
  - intros kvs ps [r [Hr [He Hb]]] Hp. rewrite Hr. cbn. rewrite He. cbn.
    rewrite Hb. cbn. rewrite Hp. reflexivity.
  - intros [[x Hr]|[r [Hr [He|Hb]]]]; rewrite Hr; cbn.
    + eexists. split; reflexivity.
    + rewrite He. cbn. eexists. split; reflexivity.
    + destruct (Z.leb 400 (status_code r) && Z.ltb (status_code r) 600); cbn;
        [eexists; split; reflexivity|].
      rewrite Hb. cbn. eexists. split; reflexivity.
  - intros j [r [Hr [He Hb]]] Hj. rewrite Hr. cbn. rewrite He. cbn.
    rewrite Hb. cbn. destruct j; try reflexivity. now elim (Hj kvs).
Qed.

Lemma get_deployment_outputs_result_witness :
  get_deployment_outputs env_no_outputs a_deployer "rg" "d" (fresh_world 0)
  = Ret (JObj [])
      (after_request env_no_outputs
         (get_request (deployment_url a_deployer "rg" "d") (fresh_world 0))
         (fresh_world 0)).
Proof.
  apply (proj1 (get_deployment_outputs_result env_no_outputs a_deployer "rg" "d"
                  (fresh_world 0))
           [("properties", JObj [])] []).
  - eexists. repeat split; reflexivity.
  - reflexivity.
Defined.

Lemma compile_bicep_result_witness :
  exists w', compile_bicep env_bad_build a_deployer "main.bicep" (fresh_world 0)
             = Ret JNull w'.
Proof.
  pose proof (compile_bicep_result env_bad_build a_deployer "main.bicep"
                (fresh_world 0)) as H.
  assert (exists v w', compile_bicep env_bad_build a_deployer "main.bicep"
                         (fresh_world 0) = Ret v w')
    as (v & w' & E) by (do 2 eexists; vm_compute; reflexivity).
  rewrite E in H. destruct H as [_ [_ [Hfail _]]].
  exists w'. rewrite E. f_equal. apply Hfail. intros out Ho. discriminate Ho.
Defined.

(* ------------------------------------------------------------------ *)
(** *** The parameter loader *)

(** Reading the entries of a wrapped mapping raises nothing when all of
    them are dicts, and [AttributeError] when one is not; the world is
    left as it was. *)
Lemma for_each_entries (ps : list (string * json)) (w : World) :
  (Forall (fun kv => is_dict (snd kv)) ps ->
   for_each (fun kv : string * json =>
               bind (py_get (snd kv) "value" JNull) (fun v => ret (fst kv, v)))
            ps w
   = Ret (map (fun kv => (fst kv, entry_value (snd kv))) ps) w)
  /\ (Exists (fun kv => ~ is_dict (snd kv)) ps ->
      for_each (fun kv : string * json =>
                  bind (py_get (snd kv) "value" JNull) (fun v => ret (fst kv, v)))
               ps w
      = Raise AttributeError w).
Proof.
  induction ps as [|[k v] ps [IHall IHex]]; split.
  - reflexivity.
  - intros H. inversion H.
  - intros H. inversion H as [|? ? [o Ho] Hrest]; subst. cbn in Ho. subst v.
    cbn [for_each fst snd]. unfold bind at 1 2. cbn [py_get]. unfold ret at 1.
    unfold bind at 1. unfold ret at 1. cbv beta iota.
    rewrite (IHall Hrest). reflexivity.
  - intros H. cbn [for_each fst snd].
    destruct v as [ | | | | |o]; try reflexivity.
    inversion H as [? ? Hv|? ? Hrest]; subst.
    + elim Hv. now exists o.
    + unfold bind at 1 2. cbn [py_get]. unfold ret at 1.
      unfold bind at 1. unfold ret at 1. cbv beta iota.
      rewrite (IHex Hrest). reflexivity.
Qed.

(** X5. For a document whose ["parameters"] entry is a dict: when every
    entry is a dict, the loader maps each name to the entry's ["value"],
    [None] where the entry has no such key, whatever other keys the entry
    has; when some entry is not a dict, the loader prints the failure
    and returns [None]. *)
Theorem load_parameters_entries (env : Env) (path : string) (w : World)
    (kvs ps : list (string * json)) :
  read_json env path = Val (JObj kvs) ->
  lookup "parameters" kvs = Some (JObj ps) ->
  (Forall (fun kv => is_dict (snd kv)) ps ->
   load_parameters env path w
   = Ret (JObj (map (fun kv => (fst kv, entry_value (snd kv))) ps)) w)
  /\ (Exists (fun kv => ~ is_dict (snd kv)) ps ->
      load_parameters env path w
      = Ret JNull (after_print (load_failed_message AttributeError) w)).
Proof.
  intros Hdoc Hp.
  assert (Hrun : forall r,
             for_each (fun kv : string * json =>
                         bind (py_get (snd kv) "value" JNull)
                              (fun v => ret (fst kv, v))) ps w = r ->
             load_parameters env path w
             = match r with
               | Ret flat w' => Ret (JObj flat) w'
               | Raise e w' => Ret JNull (after_print (load_failed_message e) w')
               | Spin => Spin
               end).
  { intros r Hr. unfold load_parameters, try_except.
    unfold bind at 1. rewrite Hdoc. cbn [lift]. unfold ret at 1.
    unfold bind at 1. cbn [py_contains]. rewrite Hp. unfold ret at 1.
    unfold bind at 1. cbn [py_getitem]. rewrite Hp. unfold ret at 1.
    unfold bind at 1. cbn [py_items]. unfold ret at 1.
    unfold bind at 1. rewrite Hr. destruct r; reflexivity. }
  destruct (for_each_entries ps w) as [Hall Hex]. split.
  - intros H. rewrite (Hrun _ (Hall H)). reflexivity.
  - intros H. rewrite (Hrun _ (Hex H)). reflexivity.
Qed.

Lemma load_parameters_entries_witness :
  load_parameters (with_file (Val doc_with_metadata) env_offline) "parameters.json"
    (fresh_world 0)
  = Ret (JObj [("x", JNum 5); ("y", JNull)]) (fresh_world 0)
  /\ load_parameters (with_file (Val doc_bare_entry) env_offline) "parameters.json"
       (fresh_world 0)
     = Ret JNull (after_print (load_failed_message AttributeError) (fresh_world 0)).
Proof.
  split.
  - apply (proj1 (load_parameters_entries
                    (with_file (Val doc_with_metadata) env_offline)
                    "parameters.json" (fresh_world 0) _ _ eq_refl eq_refl)).
    repeat constructor; eexists; reflexivity.
  - apply (proj2 (load_parameters_entries
                    (with_file (Val doc_bare_entry) env_offline)
                    "parameters.json" (fresh_world 0) _ _ eq_refl eq_refl)).
    constructor. intros [o Ho]. discriminate Ho.
Defined.

Lemma for_each_cons {A B} (f : A -> M B) (a : A) (l : list A) (w : World) :
  for_each f (a :: l) w
  = match f a w with
    | Ret b w' =>
        match for_each f l w' with
        | Ret bs w'' => Ret (b :: bs) w''
        | Raise e w'' => Raise e w''
        | Spin => Spin
        end
    | Raise e w' => Raise e w'
    | Spin => Spin
    end.
Proof. reflexivity. Qed.

Lemma for_each_entries_quiet (ps : list (string * json)) (w : World) :
  (exists flat,
      for_each (fun kv : string * json =>
                  bind (py_get (snd kv) "value" JNull) (fun v => ret (fst kv, v)))
               ps w = Ret flat w)
  \/ for_each (fun kv : string * json =>
                 bind (py_get (snd kv) "value" JNull) (fun v => ret (fst kv, v)))
              ps w = Raise AttributeError w.
Proof.
  induction ps as [|[k v] ps IH]; [left; eexists; reflexivity|].
  rewrite for_each_cons.
  destruct v as [ | | | | |o]; try (right; reflexivity).
  change (bind (py_get (snd (k, JObj o)) "value" JNull)
               (fun v => ret (fst (k, JObj o), v)) w)
    with (Ret (k, entry_value (JObj o)) w).
  destruct IH as [[flat ->]| ->]; [left; eexists; reflexivity|right; reflexivity].
Qed.

(** X6. [load_parameters] sends no request and sleeps nothing.  Whenever
    it returns, whatever the file holds and however reading it failed,
    either nothing was printed, or the one failure line was printed and
    the value is [None].  Nothing is said of a run that an exception
    ends. *)
Theorem load_parameters_quiet_or_none (env : Env) (path : string) (w : World) :
  match load_parameters env path w with
  | Ret v w' =>
      sent w' = sent w /\ slept w' = slept w
      /\ (w' = w
          \/ (v = JNull /\ exists e, w' = after_print (load_failed_message e) w))
  | Raise _ _ => True
  | Spin => False
  end.
Proof.
  assert (Hfail : forall e,
             match Ret (A:=json) JNull (after_print (load_failed_message e) w) with
             | Ret v w' =>
                 sent w' = sent w /\ slept w' = slept w
                 /\ (w' = w
                     \/ (v = JNull
                         /\ exists e, w' = after_print (load_failed_message e) w))
             | Raise _ _ => True
             | Spin => False
             end).
  { intros e. split; [reflexivity|]. split; [reflexivity|].
    right. split; [reflexivity|]. now exists e. }
  assert (Hok : forall v0,
             match Ret v0 w with
             | Ret v w' =>
                 sent w' = sent w /\ slept w' = slept w
                 /\ (w' = w
                     \/ (v = JNull
                         /\ exists e, w' = after_print (load_failed_message e) w))
             | Raise _ _ => True
             | Spin => False
             end).
  { intros v0. split; [reflexivity|]. split; [reflexivity|]. now left. }
  pose proof (fun ps => for_each_entries_quiet ps w) as Hentries.
  unfold load_parameters.
  cbv [bind ret raise try_except lift any_Exception print
       py_contains py_getitem py_items] in *.
  destruct (read_json env path) as [params|e]; [|apply Hfail].
  destruct params as [ |b|n|s|xs|kvs]; try apply Hfail.
  - destruct (String.index 0 "parameters" s); [apply Hfail|apply Hok].
  - destruct (existsb _ xs); [apply Hfail|apply Hok].
  - destruct (lookup "parameters" kvs) as [inner|]; [|apply Hok].
    destruct inner as [ | | | | |ps]; try apply Hfail.
    destruct (Hentries ps) as [[flat ->]| ->]; [apply Hok|apply Hfail].
Qed.

(* ------------------------------------------------------------------ *)
(** *** More on the two poll loops *)

(** The fuel of [enough_fuel] covers the whole budget. *)
Lemma enough_fuel_covers (timeout poll_interval : Z) :
  0 < poll_interval ->
  timeout * ticks_per_second
  <= Z.of_nat (Z.to_nat ((timeout + poll_interval - 1) / poll_interval))
     * (poll_interval * ticks_per_second).
Proof.
  intros Hi. unfold ticks_per_second.
  pose proof (Z.div_mod (timeout + poll_interval - 1) poll_interval ltac:(lia)) as Hd.
  pose proof (Z.mod_pos_bound (timeout + poll_interval - 1) poll_interval Hi) as Hm.
  set (q := (timeout + poll_interval - 1) / poll_interval) in *.
  assert (Hq : Z.of_nat (Z.to_nat q) = Z.max 0 q) by lia.
  rewrite Hq. nia.
Qed.

(** X7. For every deadline and every positive interval, both pollers
    return when given [enough_fuel], and more fuel changes nothing.  With
    a deadline of zero or less neither sends a request; otherwise each
    sends at most [ceil(timeout / interval) + 1] requests.  The source
    subtracts clock readings that are floats, so a pass can slip in when
    the time elapsed sits on the deadline itself; the bound counts that
    pass. *)
Theorem pollers_bounded (env : Env) (fuel : nat) (self : Deployer)
    (rg name location_url : string) (timeout poll_interval : Z) (w : World) :
  0 < poll_interval ->
  (enough_fuel timeout poll_interval <= fuel)%nat ->
  let bound := if Z.leb timeout 0 then 0 else ceil_div timeout poll_interval + 1 in
  match _poll_deployment env fuel self rg name timeout poll_interval w with
  | Ret _ w' | Raise _ w' => 0 <= fetches w w' <= bound
  | Spin => False
  end
  /\ match _poll_async_operation env fuel location_url timeout poll_interval w with
     | Ret _ w' | Raise _ w' => 0 <= fetches w w' <= bound
     | Spin => False
     end
  /\ _poll_deployment env fuel self rg name timeout poll_interval w
     = _poll_deployment env (enough_fuel timeout poll_interval) self rg name
         timeout poll_interval w
  /\ _poll_async_operation env fuel location_url timeout poll_interval w
     = _poll_async_operation env (enough_fuel timeout poll_interval) location_url
         timeout poll_interval w.
Proof.
  intros Hi Hfuel bound.
  change (_poll_deployment env fuel self rg name timeout poll_interval w)
    with (poll_deployment_loop env fuel (deployment_url self rg name)
            (clock w) timeout poll_interval JNull w).
  change (_poll_deployment env (enough_fuel timeout poll_interval) self rg name
            timeout poll_interval w)
    with (poll_deployment_loop env (enough_fuel timeout poll_interval)
            (deployment_url self rg name) (clock w) timeout poll_interval JNull w).
  change (_poll_async_operation env fuel location_url timeout poll_interval w)
    with (poll_async_loop env fuel location_url (clock w) timeout poll_interval w).
  change (_poll_async_operation env (enough_fuel timeout poll_interval) location_url
            timeout poll_interval w)
    with (poll_async_loop env (enough_fuel timeout poll_interval) location_url
            (clock w) timeout poll_interval w).
  set (u := deployment_url self rg name).
  rewrite !poll_deployment_loop_deadline, !poll_async_loop_deadline.
  set (dbody := poll_deployment_body env u poll_interval).
  set (abody := fun _ : unit => poll_async_body env location_url poll_interval).
  assert (Hab : forall (s : unit) w0,
             match abody s w0 with
             | Ret (Return v) w' => fetches w0 w' = 1 /\ True
             | Ret (Continue _) w' =>
                 fetches w0 w' = 1
                 /\ clock w0 + poll_interval * ticks_per_second <= clock w'
             | Raise _ w' => fetches w0 w' = 1
             | Spin => False
             end).
  { intros s w0. apply poll_async_body_progress. }
  assert (Haq : forall w0, exists w', ret JNull w0 = Ret JNull w' /\ fetches w0 w' = 0).
  { intros w0. exists w0. split; [reflexivity|]. unfold fetches. lia. }
  assert (Hbudget : budget (clock w) timeout w
                    <= Z.of_nat (Z.to_nat ((timeout + poll_interval - 1) / poll_interval))
                       * (poll_interval * ticks_per_second)).
  { unfold budget. pose proof (enough_fuel_covers timeout poll_interval Hi). lia. }
  pose proof (deadline_loop_returns dbody (deployment_timed_out timeout) (clock w)
                timeout poll_interval (fun v => terminal_document v \/ v = JNull)
                (fun s w0 => poll_deployment_body_progress env u poll_interval s w0)
                (deployment_timed_out_quiet timeout) _ JNull w Hbudget) as Hdret.
  pose proof (deadline_loop_returns abody (ret JNull) (clock w)
                timeout poll_interval (fun _ => True) Hab Haq _ tt w Hbudget) as Haret.
  fold (enough_fuel timeout poll_interval) in Hdret, Haret.
  rewrite (deadline_loop_fuel_le dbody _ _ _ _ fuel JNull w Hfuel Hdret).
  rewrite (deadline_loop_fuel_le abody _ _ _ _ fuel tt w Hfuel Haret).
  assert (Hbound : forall n,
             n = 0 \/ (0 < n /\ (n - 1) * (poll_interval * ticks_per_second)
                                < budget (clock w) timeout w) ->
             0 <= n <= bound).
  { intros n Hn. subst bound. unfold budget in Hn.
    replace (timeout * ticks_per_second - (clock w - clock w))
      with (timeout * ticks_per_second) in Hn by lia.
    destruct Hn as [->|[Hpos Hn]].
    - destruct (Z.leb_spec timeout 0); [lia|].
      assert (0 <= ceil_div timeout poll_interval)
        by (unfold ceil_div; apply Z.div_pos; lia).
      lia.
    - assert (0 < timeout) by (unfold ticks_per_second in Hn; nia).
      pose proof (fetches_le_ceil_div n timeout poll_interval Hi ltac:(lia)
                    (or_intror (conj Hpos Hn))).
      destruct (Z.leb_spec timeout 0); lia. }
  split; [|split; [|split; reflexivity]].
  - pose proof (deadline_loop_fetches dbody (deployment_timed_out timeout) (clock w)
                  timeout poll_interval (fun v => terminal_document v \/ v = JNull)
                  (fun s w0 => poll_deployment_body_progress env u poll_interval s w0)
                  (deployment_timed_out_quiet timeout)
                  (enough_fuel timeout poll_interval) JNull w) as Hn.
    destruct (deadline_loop dbody _ _ _ _ _ w) as [v w'|e w'|]; [| |now elim Hdret].
    + apply Hbound. tauto.
    + apply Hbound. tauto.
  - pose proof (deadline_loop_fetches abody (ret JNull) (clock w)
                  timeout poll_interval (fun _ => True) Hab Haq
                  (enough_fuel timeout poll_interval) tt w) as Hn.
    destruct (deadline_loop abody _ _ _ _ _ w) as [v w'|e w'|]; [| |now elim Haret].
    + apply Hbound. tauto.
    + apply Hbound. tauto.
Qed.

Lemma pollers_bounded_witness :
  _poll_async_operation env_202_bare 7 "https://follow.up" 10 5 (fresh_world 0)
  = _poll_async_operation env_202_bare 3 "https://follow.up" 10 5 (fresh_world 0).
Proof.
  destruct (pollers_bounded env_202_bare 7 a_deployer "rg" "d"
              "https://follow.up" 10 5 (fresh_world 0) eq_refl
              (proj1 (Nat.leb_le 3 7) eq_refl)) as [_ [_ [_ H]]].
  exact H.
Defined.

Section Sleeps.
Context {S : Type}.
Variable body : S -> M (step S json).
Variable on_timeout : M json.
Variables start_time timeout poll_interval : Z.

Hypothesis body_sleeps : forall s w,
  match body s w with
  | Ret (Return _) w' | Raise _ w' => fetches w w' = 1 /\ slept w' = slept w
  | Ret (Continue _) w' => fetches w w' = 1 /\ slept w' = poll_interval :: slept w
  | Spin => True
  end.
Hypothesis on_timeout_sleeps : forall w,
  match on_timeout w with
  | Ret _ w' | Raise _ w' => fetches w w' = 0 /\ slept w' = slept w
  | Spin => True
  end.

(** Every pass but the last sleeps once, for the interval. *)
Lemma deadline_loop_sleeps (fuel : nat) :
  forall s w,
    match deadline_loop body on_timeout start_time timeout fuel s w with
    | Ret _ w' | Raise _ w' =>
        exists k, slept w' = (repeat poll_interval k ++ slept w)%list
                  /\ Z.of_nat k <= fetches w w' <= Z.of_nat k + 1
    | Spin => True
    end.
Proof.
  induction fuel as [|fuel IH]; intros s w; [exact I|].
  cbn [deadline_loop].
  destruct (Z.ltb (clock w - start_time) (timeout * ticks_per_second)).
  - pose proof (body_sleeps s w) as Hb.
    destruct (body s w) as [[v|s'] w1|e w1|]; [| | |exact I].
    + exists 0%nat. destruct Hb as [Hf Hs]. split; [exact Hs|lia].
    + destruct Hb as [Hf Hs]. specialize (IH s' w1).
      destruct (deadline_loop body on_timeout start_time timeout fuel s' w1)
        as [v w2|e w2|]; [| |exact I];
        destruct IH as [k [Hk Hn]]; exists (Datatypes.S k);
        (split; [rewrite Hk, Hs; cbn [repeat]; rewrite repeat_cons, <- app_assoc;
                 reflexivity
                |unfold fetches in *; lia]).
    + exists 0%nat. destruct Hb as [Hf Hs]. split; [exact Hs|lia].
  - pose proof (on_timeout_sleeps w) as Ht.
    destruct (on_timeout w) as [v w'|e w'|]; [| |exact I];
      exists 0%nat; destruct Ht as [Hf Hs]; (split; [exact Hs|lia]).
Qed.
End Sleeps.

Section Returned.
Context {S : Type}.
Variable body : S -> M (step S json).
Variable on_timeout : M json.
Variables start_time timeout : Z.
Variable returned : json -> World -> Prop.

Hypothesis body_returned : forall s w,
  match body s w with
  | Ret (Return v) w' => returned v w'
  | _ => True
  end.
Hypothesis on_timeout_returned : forall w,
  match on_timeout w with
  | Ret v w' => returned v w'
  | _ => True
  end.

(** What holds of every value a pass returns, and of the value of the
    time-out exit, holds of every value the loop returns. *)
Lemma deadline_loop_returned (fuel : nat) :
  forall s w,
    match deadline_loop body on_timeout start_time timeout fuel s w with
    | Ret v w' => returned v w'
    | _ => True
    end.
Proof.
  induction fuel as [|fuel IH]; intros s w; [exact I|].
  cbn [deadline_loop].
  destruct (Z.ltb (clock w - start_time) (timeout * ticks_per_second)).
  - pose proof (body_returned s w) as Hb.
    destruct (body s w) as [[v|s'] w1|e w1|]; try exact I; [exact Hb|apply IH].
  - apply on_timeout_returned.
Qed.
End Returned.

Lemma poll_deployment_body_sleeps (env : Env) (u : string) (poll_interval : Z)
    (last_status : json) (w : World) :
  match poll_deployment_body env u poll_interval last_status w with
  | Ret (Return _) w' | Raise _ w' => fetches w w' = 1 /\ slept w' = slept w
  | Ret (Continue _) w' => fetches w w' = 1 /\ slept w' = poll_interval :: slept w
  | Spin => True
  end.
Proof.
  rewrite poll_deployment_body_reply.
  pose proof (fetches_after_request env (get_request u w) w) as Hf.
  destruct (http_reply env _ _) as [r|e].
  - destruct (is_error_status r); [split; [exact Hf|reflexivity]|].
    destruct (body r) as [result|]; [|split; [exact Hf|reflexivity]].
    destruct (state_of result) as [s|]; [|split; [exact Hf|reflexivity]].
    cbv zeta.
    destruct (is_terminal s); [|destruct (Z.ltb poll_interval 0)];
      destruct (py_eq s last_status); split; try exact Hf; reflexivity.
  - destruct (is_RequestException e); split; try exact Hf; reflexivity.
Qed.

Lemma poll_async_body_sleeps (env : Env) (u : string) (poll_interval : Z) (w : World) :
  match poll_async_body env u poll_interval w with
  | Ret (Return _) w' | Raise _ w' => fetches w w' = 1 /\ slept w' = slept w
  | Ret (Continue _) w' => fetches w w' = 1 /\ slept w' = poll_interval :: slept w
  | Spin => True
  end.
Proof.
  rewrite poll_async_body_reply.
  pose proof (fetches_after_request env (get_request u w) w) as Hf.
  destruct (http_reply env _ _) as [r|e].
  - destruct (Z.eqb (status_code r) 200).
    + destruct (body r); split; try exact Hf; reflexivity.
    + destruct (Z.eqb (status_code r) 202); [|split; [exact Hf|reflexivity]].
      destruct (Z.ltb poll_interval 0); split; try exact Hf; reflexivity.
  - destruct (is_RequestException e); split; try exact Hf; reflexivity.
Qed.

(** X8. Neither poller busy-polls: in every run, of any length, every
    sleep lasts exactly the poll interval, and the requests sent are as
    many as the sleeps, or one more. *)
Theorem pollers_sleep_between_requests (env : Env) (fuel : nat) (self : Deployer)
    (rg name location_url : string) (timeout poll_interval : Z) (w : World) :
  match _poll_deployment env fuel self rg name timeout poll_interval w with
  | Ret _ w' | Raise _ w' =>
      exists k, slept w' = (repeat poll_interval k ++ slept w)%list
                /\ Z.of_nat k <= fetches w w' <= Z.of_nat k + 1
  | Spin => True
  end
  /\ match _poll_async_operation env fuel location_url timeout poll_interval w with
     | Ret _ w' | Raise _ w' =>
         exists k, slept w' = (repeat poll_interval k ++ slept w)%list
                   /\ Z.of_nat k <= fetches w w' <= Z.of_nat k + 1
     | Spin => True
     end.
Proof.
  change (_poll_deployment env fuel self rg name timeout poll_interval w)
    with (poll_deployment_loop env fuel (deployment_url self rg name)
            (clock w) timeout poll_interval JNull w).
  change (_poll_async_operation env fuel location_url timeout poll_interval w)
    with (poll_async_loop env fuel location_url (clock w) timeout poll_interval w).
  rewrite poll_deployment_loop_deadline, poll_async_loop_deadline.
  split.
  - apply deadline_loop_sleeps.
    + intros s w0. apply poll_deployment_body_sleeps.
    + intros w0. cbn. split; [unfold fetches; cbn; lia|reflexivity].
  - apply (deadline_loop_sleeps (fun _ : unit => poll_async_body env location_url
                                                   poll_interval)).
    + intros s w0. apply poll_async_body_sleeps.
    + intros w0. cbn. split; [unfold fetches; lia|reflexivity].
Qed.

Lemma poll_deployment_body_returned (env : Env) (u : string) (poll_interval : Z)
    (last_status : json) (w : World) :
  match poll_deployment_body env u poll_interval last_status w with
  | Ret (Return v) w' =>
      v = JNull \/ (terminal_document v /\ last_reply_body env w' v)
  | _ => True
  end.
Proof.
  rewrite poll_deployment_body_reply.
  destruct (http_reply env _ _) as [r|e] eqn:Hr.
  - destruct (is_error_status r); [now left|].
    destruct (body r) as [result|] eqn:Hb; [|now left].
    destruct (state_of result) as [s|] eqn:Hs; [|exact I].
    cbv zeta.
    destruct (is_terminal s) eqn:Ht.
    + right. split; [exists s; auto|].
      exists (get_request u w), (sent w), r.
      destruct (py_eq s last_status); cbn [sent after_print after_request]; auto.
    + destruct (Z.ltb poll_interval 0); exact I.
  - destruct (is_RequestException e); [now left|exact I].
Qed.

Lemma poll_async_body_returned (env : Env) (u : string) (poll_interval : Z) (w : World) :
  match poll_async_body env u poll_interval w with
  | Ret (Return v) w' => v = JNull \/ last_reply_body env w' v
  | _ => True
  end.
Proof.
  rewrite poll_async_body_reply.
  destruct (http_reply env _ _) as [r|e] eqn:Hr.
  - destruct (Z.eqb (status_code r) 200).
    + destruct (body r) as [j|] eqn:Hb; [|now left].
      right. exists (get_request u w), (sent w), r. cbn [sent after_request]. auto.
    + destruct (Z.eqb (status_code r) 202); [|now left].
      destruct (Z.ltb poll_interval 0); exact I.
  - destruct (is_RequestException e); [now left|exact I].
Qed.

Lemma poll_deployment_returned (env : Env) (fuel : nat) (self : Deployer)
    (rg name : string) (timeout poll_interval : Z) (w : World) :
  match _poll_deployment env fuel self rg name timeout poll_interval w with
  | Ret v w' => v = JNull \/ (terminal_document v /\ last_reply_body env w' v)
  | _ => True
  end.
Proof.
  change (_poll_deployment env fuel self rg name timeout poll_interval w)
    with (poll_deployment_loop env fuel (deployment_url self rg name)
            (clock w) timeout poll_interval JNull w).
  rewrite poll_deployment_loop_deadline.
  apply (deadline_loop_returned _ _ _ _
           (fun v w' => v = JNull \/ (terminal_document v /\ last_reply_body env w' v))).
  - intros s w0. apply poll_deployment_body_returned.
  - intros w0. cbn. now left.
Qed.

(** X9. What a poller returns is [None] or the JSON body of the reply to
    the last request it sent: for the deployment poller a status document
    whose state is terminal, for the location-header poller the payload
    of the 200 reply.  No earlier reply is ever returned. *)
Theorem pollers_return_last_reply (env : Env) (fuel : nat) (self : Deployer)
    (rg name location_url : string) (timeout poll_interval : Z) (w : World) :
  match _poll_deployment env fuel self rg name timeout poll_interval w with
  | Ret v w' => v = JNull \/ (terminal_document v /\ last_reply_body env w' v)
  | _ => True
  end
  /\ match _poll_async_operation env fuel location_url timeout poll_interval w with
     | Ret v w' => v = JNull \/ last_reply_body env w' v
     | _ => True
     end.
Proof.
  split; [apply poll_deployment_returned|].
  change (_poll_async_operation env fuel location_url timeout poll_interval w)
    with (poll_async_loop env fuel location_url (clock w) timeout poll_interval w).
  rewrite poll_async_loop_deadline.
  apply (deadline_loop_returned _ _ _ _
           (fun v w' => v = JNull \/ last_reply_body env w' v)).
  - intros s w0. apply poll_async_body_returned.
  - intros w0. cbn. now left.
Qed.

(* ------------------------------------------------------------------ *)
(** *** Deployment and validation *)

Lemma poll_deployment_finishes (env : Env) (self : Deployer) (rg name : string)
    (timeout poll_interval : Z) (w : World) :
  0 < poll_interval ->
  _poll_deployment env (enough_fuel timeout poll_interval) self rg name
    timeout poll_interval w <> Spin.
Proof.
  intros Hi.
  change (_poll_deployment env (enough_fuel timeout poll_interval) self rg name
            timeout poll_interval w)
    with (poll_deployment_loop env (enough_fuel timeout poll_interval)
            (deployment_url self rg name) (clock w) timeout poll_interval JNull w).
  rewrite poll_deployment_loop_deadline.
  apply (deadline_loop_returns _ _ _ _ poll_interval
           (fun v => terminal_document v \/ v = JNull)).
  - intros s w0. apply poll_deployment_body_progress.
  - intros w0. apply deployment_timed_out_quiet.
  - unfold budget. pose proof (enough_fuel_covers timeout poll_interval Hi). lia.
Qed.

Lemma poll_async_finishes (env : Env) (u : string)
    (timeout poll_interval : Z) (w : World) :
  0 < poll_interval ->
  _poll_async_operation env (enough_fuel timeout poll_interval) u
    timeout poll_interval w <> Spin.
Proof.
  intros Hi.
  change (_poll_async_operation env (enough_fuel timeout poll_interval) u
            timeout poll_interval w)
    with (poll_async_loop env (enough_fuel timeout poll_interval) u (clock w)
            timeout poll_interval w).
  rewrite poll_async_loop_deadline.
  apply (deadline_loop_returns _ _ _ _ poll_interval (fun _ => True)).
  - intros s w0. apply poll_async_body_progress.
  - intros w0. exists w0. split; [reflexivity|]. unfold fetches. lia.
  - unfold budget. pose proof (enough_fuel_covers timeout poll_interval Hi). lia.
Qed.

Lemma deploy_template_outcome (env : Env) (self : Deployer) (rg name : string)
    (template parameters : json) (w : World) :
  match deploy_template env self rg name template parameters w with
  | Ret v w' =>
      v = JNull
      \/ (state_of v = Some (JStr "Succeeded") /\ last_reply_body env w' v)
  | Raise e _ => is_RequestException e = false
  | Spin => False
  end.
Proof.
  pose proof (fun w0 => poll_deployment_returned env
                (enough_fuel POLL_DEPLOYMENT_TIMEOUT POLL_DEPLOYMENT_INTERVAL)
                self rg name POLL_DEPLOYMENT_TIMEOUT POLL_DEPLOYMENT_INTERVAL w0)
    as Hret.
  pose proof (fun w0 => poll_deployment_finishes env self rg name
                POLL_DEPLOYMENT_TIMEOUT POLL_DEPLOYMENT_INTERVAL w0 eq_refl) as Hfin.
  unfold deploy_template.
  cbv [bind ret raise try_except print requests_put requests_send _get_headers
       get_attrs raise_for_status print_response_if_verbose py_get].
  destruct (http_reply env _ _) as [r|e].
  - destruct (Z.leb 400 (status_code r) && Z.ltb (status_code r) 600).
    { destruct (verbose self); now left. }
    match goal with
    | |- context [_poll_deployment ?x1 ?x2 ?x3 ?x4 ?x5 ?x6 ?x7 ?w0] =>
        specialize (Hret w0); specialize (Hfin w0);
        destruct (_poll_deployment x1 x2 x3 x4 x5 x6 x7 w0) as [v w2|e w2|]
    end; [| |now elim Hfin].
    + destruct Hret as [->|[[s [Hs Ht]] Hlast]]; [now left|].
      destruct v as [ | | | | |kvs]; try discriminate Hs.
      destruct kvs as [|kv kvs]; [cbn in Hs; injection Hs as <-; discriminate Ht|].
      cbn [truthy]. pose proof Hs as Hs0. unfold state_of in Hs.
      destruct (lookup "properties" (kv :: kvs)) as [p|].
      * destruct p as [ | | | | |ps]; try discriminate Hs.
        injection Hs as Hs.
        destruct (lookup "provisioningState" ps) as [s0|]; subst s;
          [|vm_compute in Ht; discriminate Ht].
        destruct (py_eq s0 (JStr "Succeeded")) eqn:Hpe.
        -- apply py_eq_str in Hpe. subst s0. right. split; [exact Hs0|exact Hlast].
        -- destruct (truthy _); now left.
      * injection Hs as <-. vm_compute in Ht. discriminate Ht.
    + destruct (is_RequestException e) eqn:He; [|exact He].
      destruct e; try discriminate He. destruct response, (verbose self); now left.
  - destruct (is_RequestException e) eqn:He; [|exact He].
    destruct e; try discriminate He. destruct response, (verbose self); now left.
Qed.

(** X10. [deploy_template] returns; what it returns is [None] or a status
    document whose [provisioningState] is ["Succeeded"], the body of the
    reply to the last request sent.  [Failed], [Canceled], a time-out and
    a failed request all give [None].  No [RequestException] leaves it. *)
Theorem deploy_template_returns_succeeded (env : Env) (self : Deployer)
    (rg name : string) (template parameters : json) (w : World) :
  match deploy_template env self rg name template parameters w with
  | Ret v w' =>
      v = JNull
      \/ (state_of v = Some (JStr "Succeeded") /\ last_reply_body env w' v)
  | Raise e _ => is_RequestException e = false
  | Spin => False
  end.
Proof. apply deploy_template_outcome. Qed.

(** X11. When the submission of a deployment is refused,
    [deploy_template] returns [None] with the PUT as the only request
    sent: nothing is polled and nothing is slept. *)
Theorem deploy_template_submission_refused (env : Env) (self : Deployer)
    (rg name : string) (template parameters : json) (w : World) :
  let rq := deploy_request self rg name template parameters w in
  refused (http_reply env (List.length (sent w)) rq) ->
  exists w',
    deploy_template env self rg name template parameters w = Ret JNull w'
    /\ sent w' = rq :: sent w
    /\ slept w' = slept w.
Proof.
  intros rq H. subst rq.
  unfold deploy_template, deploy_request, get_request, refused, is_error_status in *.
  cbv [bind ret raise try_except print requests_put requests_send _get_headers
       get_attrs raise_for_status print_response_if_verbose] in *.
  cbn [req_headers sent List.length attrs] in *.
  destruct H as [[x H]|[r [H He]]]; rewrite H.
  - cbn. destruct x, (verbose self); eexists; repeat split.
  - rewrite He. cbn. destruct (verbose self); eexists; repeat split.
Qed.

Lemma deploy_template_submission_refused_witness :
  exists w', deploy_template env_submission_refused a_deployer "rg" "d"
               (JObj []) (JObj []) (fresh_world 0) = Ret JNull w'
             /\ List.length (sent w') = 1%nat.
Proof.
  destruct (deploy_template_submission_refused env_submission_refused a_deployer
              "rg" "d" (JObj []) (JObj []) (fresh_world 0)) as [w' [H [Hs _]]].
  - right. eexists. split; reflexivity.
  - exists w'. split; [exact H|rewrite Hs; reflexivity].
Defined.

(** X12. A what-if submission answered without an error status.  When
    the status is not 202 the answer is taken at once: [True] if the body
    is JSON, whatever it holds, [False] if it is not; nothing is polled.
    When the status is 202 with a [Location], the result is the truth
    value of what the poller returns: [False] for a time-out, a failure,
    and also for an empty or null payload. *)
Theorem validate_deployment_result (env : Env) (self : Deployer) (rg : string)
    (template parameters : json) (w : World) (r : Response) :
  let rq := what_if_request self rg template parameters w in
  let w1 := after_request env rq (after_print running_message w) in
  http_reply env (List.length (sent w)) rq = Val r ->
  is_error_status r = false ->
  (status_code r <> 202 ->
   exists w',
     validate_deployment env self rg template parameters w
     = Ret (match body r with Some _ => true | None => false end) w'
     /\ sent w' = rq :: sent w /\ slept w' = slept w)
  /\ (status_code r = 202 ->
      forall location v w2,
        headers_get "Location" (headers r) = Some location ->
        location <> "" ->
        _poll_async_operation env (enough_fuel POLL_ASYNC_TIMEOUT POLL_ASYNC_INTERVAL)
          location POLL_ASYNC_TIMEOUT POLL_ASYNC_INTERVAL w1 = Ret v w2 ->
        exists w',
          validate_deployment env self rg template parameters w = Ret (truthy v) w'
          /\ sent w' = sent w2 /\ slept w' = slept w2).
Proof.
  intros rq w1 Hr He. subst rq w1.
  unfold validate_deployment, what_if_request, get_request, after_request,
    after_print, running_message, is_error_status in *.
  cbv [bind ret raise try_except print requests_post requests_send _get_headers
       get_attrs raise_for_status print_response_if_verbose print_if_verbose
       response_json int_time time_time] in *.
  cbn [req_headers sent List.length attrs clock slept printed asked] in *.
  rewrite Hr, He. split.
  - intros Hs. apply Z.eqb_neq in Hs. rewrite Hs.
    destruct (body r); destruct (verbose self); cbn; eexists; repeat split.
  - intros Hs location v w2 Hl Hne Hp. rewrite Hs. cbn [Z.eqb Pos.eqb].
    rewrite Hl. apply String.eqb_neq in Hne. rewrite Hne. cbn [negb].
    rewrite Hp.
    destruct (truthy v); [destruct (verbose self)|]; eexists; repeat split.
Qed.

Lemma validate_deployment_result_witness :
  exists w', validate_deployment env_empty_preview a_deployer "rg" (JObj []) (JObj [])
               (fresh_world 0) = Ret true w'
             /\ List.length (sent w') = 1%nat.
Proof.
  destruct (validate_deployment_result env_empty_preview a_deployer "rg"
              (JObj []) (JObj []) (fresh_world 0)
              (mkResponse 200 [] (Some (JObj []))) eq_refl eq_refl) as [H _].
  destruct (H ltac:(discriminate)) as [w' [Hv [Hs _]]].
  exists w'. split; [exact Hv|rewrite Hs; reflexivity].
Defined.

(* ------------------------------------------------------------------ *)
(** *** Composing commands *)

Lemma returns_ret {A} (P : A -> Prop) (a : A) : P a -> returns P (ret a).
Proof. intros H w. exact H. Qed.

Lemma returns_raise {A} (P : A -> Prop) (e : exn) : returns P (raise e).
Proof. intros w. exact I. Qed.

Lemma returns_bind {A B} (Q : A -> Prop) (P : B -> Prop) (m : M A) (k : A -> M B) :
  returns Q m -> (forall a, Q a -> returns P (k a)) -> returns P (bind m k).
Proof.
  intros Hm Hk w. unfold bind. specialize (Hm w).
  destruct (m w) as [a w'|e w'|]; [|exact I|exact Hm].
  apply (Hk a Hm).
Qed.

Lemma returns_try_except {A} (P : A -> Prop) (m : M A) (c : exn -> bool)
    (h : exn -> M A) :
  returns P m -> (forall e, returns P (h e)) -> returns P (try_except m c h).
Proof.
  intros Hm Hh w. unfold try_except. specialize (Hm w).
  destruct (m w) as [a w'|e w'|]; [exact Hm| |exact Hm].
  destruct (c e); [apply Hh|exact I].
Qed.

Lemma returns_any {A} (P : A -> Prop) (m : M A) :
  returns P m -> returns (fun _ => True) m.
Proof.
  intros H w. specialize (H w). destruct (m w); [exact I|exact I|exact H].
Qed.

Lemma returns_finishes {A} (m : M A) :
  (forall w, m w <> Spin) -> returns (fun _ => True) m.
Proof.
  intros H w. specialize (H w). destruct (m w); [exact I|exact I|now elim H].
Qed.

Lemma returns_for_each {A B} (f : A -> M B) (l : list A) :
  (forall a, returns (fun _ => True) (f a)) ->
  returns (fun _ => True) (for_each f l).
Proof.
  intros Hf. induction l as [|a l IH]; [apply returns_ret; exact I|].
  cbn [for_each].
  apply (returns_bind (fun _ => True)); [apply Hf|intros b _].
  apply (returns_bind (fun _ => True)); [exact IH|intros bs _].
  apply returns_ret. exact I.
Qed.

Lemma triple_ret {A} (P : World -> Prop) (Q : A -> World -> Prop) (a : A) :
  (forall w, P w -> Q a w) -> triple P (ret a) Q.
Proof. intros H w Hw. apply H. exact Hw. Qed.

Lemma triple_bind {A B} (P : World -> Prop) (Q1 : A -> World -> Prop)
    (Q : B -> World -> Prop) (m : M A) (k : A -> M B) :
  triple P m Q1 -> (forall a, triple (Q1 a) (k a) Q) -> triple P (bind m k) Q.
Proof.
  intros Hm Hk w Hw. unfold bind. specialize (Hm w Hw).
  destruct (m w) as [a w'|e w'|]; [|exact I|exact I].
  apply (Hk a w' Hm).
Qed.

Lemma triple_any {A} (P : World -> Prop) (m : M A) : triple P m (fun _ _ => True).
Proof. intros w _. destruct (m w); exact I. Qed.

Lemma triple_pre {A} (P P' : World -> Prop) (Q : A -> World -> Prop) (m : M A) :
  (forall w, P w -> P' w) -> triple P' m Q -> triple P m Q.
Proof. intros H Hm w Hw. apply Hm. apply H. exact Hw. Qed.

Ltac destruct_scrutinee x :=
  lazymatch x with
  | context [match ?y with _ => _ end] => destruct_scrutinee y
  | context [if ?y then _ else _] => destruct_scrutinee y
  | _ => destruct x
  end.

Ltac returns_prim :=
  let w := fresh "w" in
  intros w;
  cbv beta iota zeta delta
    [bind ret raise try_except lift print time_time int_time
     set_credential set_access_token set_attrs get_attrs
     credential_get_token any_Exception requests_get requests_put
     requests_post requests_send _get_headers raise_for_status
     response_json time_sleep print_if_verbose print_response_if_verbose
     py_get py_getitem py_items py_contains init];
  repeat match goal with
         | |- context [match ?x with _ => _ end] => destruct_scrutinee x
         | |- context [if ?x then _ else _] => destruct_scrutinee x
         end;
  exact I.

Create HintDb returns.

Ltac returns_auto :=
  repeat first
    [ solve [auto with returns]
    | match goal with
      | |- returns _ (ret _) => apply returns_ret; solve [auto]
      | |- returns _ (raise _) => apply returns_raise
      | |- returns _ (bind _ _) => apply (returns_bind (fun _ => True)); [|intros ? _]
      | |- returns _ (try_except _ _ _) => apply returns_try_except; [|intros ?]
      | |- returns _ (for_each _ _) => apply returns_for_each; intros ?
      | |- returns _ (if ?b then _ else _) => destruct b
      | |- returns _ (match ?x with _ => _ end) => destruct x
      | |- returns _ (let _ := _ in _) => cbv zeta
      end
    | solve [returns_prim] ].

Lemma returns_poll_deployment (env : Env) (self : Deployer) (rg name : string) :
  returns (fun _ => True)
    (_poll_deployment env (enough_fuel POLL_DEPLOYMENT_TIMEOUT POLL_DEPLOYMENT_INTERVAL)
       self rg name POLL_DEPLOYMENT_TIMEOUT POLL_DEPLOYMENT_INTERVAL).
Proof.
  apply returns_finishes. intros w. apply poll_deployment_finishes. reflexivity.
Qed.

Lemma returns_poll_async (env : Env) (u : string) :
  returns (fun _ => True)
    (_poll_async_operation env (enough_fuel POLL_ASYNC_TIMEOUT POLL_ASYNC_INTERVAL)
       u POLL_ASYNC_TIMEOUT POLL_ASYNC_INTERVAL).
Proof.
  apply returns_finishes. intros w. apply poll_async_finishes. reflexivity.
Qed.

#[local] Hint Resolve returns_poll_deployment returns_poll_async : returns.

Lemma returns_authenticate (env : Env) (self : Deployer) :
  returns (fun _ => True) (authenticate env self).
Proof. unfold authenticate. returns_auto. Qed.

Lemma returns_get_subscription_info (env : Env) (self : Deployer) :
  returns (fun _ => True) (get_subscription_info env self).
Proof. unfold get_subscription_info. returns_auto. Qed.

Lemma returns_check_resource_group_exists (env : Env) (self : Deployer) (rg : string) :
  returns (fun _ => True) (check_resource_group_exists env self rg).
Proof. unfold check_resource_group_exists. returns_auto. Qed.

Lemma returns_create_resource_group (env : Env) (self : Deployer) (rg loc : string) :
  returns (fun _ => True) (create_resource_group env self rg loc).
Proof. unfold create_resource_group. returns_auto. Qed.

Lemma returns_compile_bicep (env : Env) (self : Deployer) (file : string) :
  returns (fun _ => True) (compile_bicep env self file).
Proof. unfold compile_bicep. returns_auto. Qed.

Lemma returns_load_parameters (env : Env) (path : string) :
  returns (fun _ => True) (load_parameters env path).
Proof. unfold load_parameters. returns_auto. Qed.

Lemma returns_validate_deployment (env : Env) (self : Deployer) (rg : string)
    (template parameters : json) :
  returns (fun _ => True) (validate_deployment env self rg template parameters).
Proof. unfold validate_deployment. returns_auto. Qed.

Lemma returns_deploy_template (env : Env) (self : Deployer) (rg name : string)
    (template parameters : json) :
  returns (fun _ => True) (deploy_template env self rg name template parameters).
Proof. unfold deploy_template. returns_auto. Qed.

Lemma returns_get_deployment_outputs (env : Env) (self : Deployer) (rg name : string) :
  returns (fun _ => True) (get_deployment_outputs env self rg name).
Proof. unfold get_deployment_outputs. returns_auto. Qed.

Lemma returns_print_outputs (outputs : json) :
  returns (fun _ => True) (print_outputs outputs).
Proof. unfold print_outputs. returns_auto. Qed.

#[local] Hint Resolve returns_authenticate returns_get_subscription_info
  returns_check_resource_group_exists returns_create_resource_group
  returns_compile_bicep returns_load_parameters returns_validate_deployment
  returns_deploy_template returns_get_deployment_outputs returns_print_outputs
  : returns.

Lemma returns_main (env : Env) (args : Args) :
  returns (fun c => c = 0 \/ c = 1) (main env args).
Proof. unfold main. returns_auto. Qed.

(** X13. Once the command line is parsed, [main] comes to an end whatever
    the outside world answers: with the poll loops' default timeouts and
    intervals no run goes on for ever, and the value [main] returns is 0
    or 1.  Nothing is said of a run that an exception ends. *)
Theorem main_returns_zero_or_one (env : Env) (args : Args) (w : World) :
  match main env args w with
  | Ret c _ => c = 0 \/ c = 1
  | Raise _ _ => True
  | Spin => False
  end.
Proof. apply returns_main. Qed.

(** *** A run of [main] *)

Lemma bind_Ret {A B} (m : M A) (k : A -> M B) (w w1 : World) (a : A) :
  m w = Ret a w1 -> bind m k w = k a w1.
Proof. intros H. unfold bind. rewrite H. reflexivity. Qed.

Lemma answered_later (env : Env) (w w' : World) (v : json) (ext : list Request) :
  sent w' = (ext ++ sent w)%list -> answered env w v -> answered env w' v.
Proof.
  intros Hs (front & rq & rest & r & Hw & Hr & Hb).
  exists (ext ++ front)%list, rq, rest, r.
  split; [|split; assumption].
  rewrite Hs, Hw, app_assoc. reflexivity.
Qed.

Lemma authenticate_no_token (env : Env) (self : Deployer) (w : World) :
  no_token env ->
  exists w', authenticate env self w = Ret false w' /\ sent w' = sent w.
Proof.
  unfold no_token, authenticate. unfold_m. intros H.
  destruct (get_token env AzureCliCredential) as [t|e]; [elim H|].
  destruct e; cbn;
    try (eexists; split; reflexivity).
  destruct (get_token env DefaultAzureCredential) as [t|e]; [elim H|].
  cbn. eexists; split; reflexivity.
Qed.

(** X15. When a subscription is named on the command line and no
    credential provider hands out a token, [main] ends with status 1
    before any HTTP request is sent. *)
Theorem main_stops_without_token (env : Env) (args : Args) (s : string) (w : World) :
  arg_subscription_id args = Some s -> s <> "" -> no_token env ->
  exists w', main env args w = Ret 1 w' /\ sent w' = sent w.
Proof.
  intros Hs Hne Hno.
  assert (String.eqb s "" = false) as Hb by (apply String.eqb_neq; exact Hne).
  unfold main. rewrite Hs, Hb.
  erewrite bind_Ret by reflexivity.
  erewrite bind_Ret by reflexivity.
  erewrite bind_Ret by reflexivity.
  cbv beta iota.
  erewrite bind_Ret by reflexivity.
  match goal with
  | |- exists _, bind (authenticate env ?d) _ ?w0 = _ /\ _ =>
      destruct (authenticate_no_token env d w0 Hno) as (w1 & Ha & Hsent)
  end.
  erewrite bind_Ret by exact Ha.
  exists w1. split; [reflexivity|exact Hsent].
Qed.

Lemma main_stops_without_token_witness :
  exists w', main env_logged_out args_deploy (fresh_world 0) = Ret 1 w'
             /\ sent w' = sent (fresh_world 0).
Proof.
  apply (main_stops_without_token env_logged_out args_deploy "sub" (fresh_world 0)).
  - reflexivity.
  - discriminate.
  - vm_compute. exact I.
Defined.

Lemma triple_deploy_template (env : Env) (self : Deployer) (rg name : string)
    (template parameters : json) :
  triple (fun _ => True) (deploy_template env self rg name template parameters)
    (fun v w' => v = JNull
                 \/ (state_of v = Some (JStr "Succeeded") /\ last_reply_body env w' v)).
Proof.
  intros w _.
  pose proof (deploy_template_outcome env self rg name template parameters w) as H.
  destruct (deploy_template env self rg name template parameters w); [exact H|exact I|exact I].
Qed.

Lemma triple_print_answered (env : Env) (v : json) (m : message) :
  triple (fun w => answered env w v) (print m) (fun _ w' => answered env w' v).
Proof. intros w H. exact (answered_later env w _ v [] eq_refl H). Qed.

Lemma triple_get_deployment_outputs_answered (env : Env) (self : Deployer)
    (rg name : string) (v : json) :
  triple (fun w => answered env w v) (get_deployment_outputs env self rg name)
    (fun _ w' => answered env w' v).
Proof.
  intros w H. unfold get_deployment_outputs. unfold_m. cbn.
  repeat match goal with
         | |- context [match ?x with _ => _ end] => destruct_scrutinee x; cbn
         | |- context [if ?x then _ else _] => destruct_scrutinee x; cbn
         end;
    try exact I;
    match goal with
    | |- answered _ ?w1 _ => exact (answered_later env w w1 v [_] eq_refl H)
    end.
Qed.

Lemma triple_print_outputs_answered (env : Env) (v outputs : json) :
  triple (fun w => answered env w v) (print_outputs outputs)
    (fun _ w' => answered env w' v).
Proof.
  unfold print_outputs.
  apply (triple_bind _ (fun _ w => answered env w v)).
  - intros w H. unfold py_items. destruct outputs; try exact I. exact H.
  - intros items.
    apply (triple_bind _ (fun _ w => answered env w v));
      [|intros ?; apply triple_ret; intros w H; exact H].
    induction items as [|a items IH]; [apply triple_ret; intros w H; exact H|].
    cbn [for_each].
    apply (triple_bind _ (fun _ w => answered env w v)).
    + apply (triple_bind _ (fun _ w => answered env w v));
        [|intros ?; apply triple_print_answered].
      intros w H. unfold py_get. destruct (snd a); try exact I; exact H.
    + intros b. apply (triple_bind _ (fun _ w => answered env w v)); [exact IH|].
      intros bs. apply triple_ret. intros w H. exact H.
Qed.

Lemma triple_pre_pure {A} (R : Prop) (P : World -> Prop) (Q : A -> World -> Prop)
    (m : M A) :
  (R -> triple P m Q) -> triple (fun w => R /\ P w) m Q.
Proof. intros H w [HR HP]. exact (H HR w HP). Qed.

Lemma last_reply_body_answered (env : Env) (w : World) (v : json) :
  last_reply_body env w v -> answered env w v.
Proof.
  intros (rq & rest & r & H1 & H2 & H3).
  exists [], rq, rest, r. split; [exact H1|split; assumption].
Qed.

Ltac triple_skip :=
  repeat match goal with
         | |- triple _ (ret 1) _ =>
             apply triple_ret; intros ? _ ?; discriminate
         | |- triple _ (bind (deploy_template _ _ _ _ _ _) _) _ => fail 1
         | |- triple _ (bind _ _) _ =>
             apply (triple_bind _ (fun _ _ => True)); [apply triple_any|intros ?]
         | |- triple _ (if false then _ else _) _ => cbv beta iota
         | |- triple _ (if ?b then _ else _) _ => destruct b
         | |- triple _ (match ?x with _ => _ end) _ => destruct x
         | |- triple _ (let _ := _ in _) _ => cbv zeta
         end.

Ltac triple_answered env v :=
  repeat match goal with
         | |- triple _ (ret 0) _ =>
             apply triple_ret; intros ? ? _; exists v; split; assumption
         | |- triple _ (ret tt) _ =>
             apply triple_ret; intros ? ?; assumption
         | |- triple _ (print _) _ => apply triple_print_answered
         | |- triple _ (print_outputs _) _ => apply triple_print_outputs_answered
         | |- triple _ (get_deployment_outputs _ _ _ _) _ =>
             apply triple_get_deployment_outputs_answered
         | |- triple _ (bind _ _) _ =>
             apply (triple_bind _ (fun _ w => answered env w v)); [|intros ?]
         | |- triple _ (if ?b then _ else _) _ => destruct b
         end.

Lemma triple_main_deploy (env : Env) (args : Args) :
  what_if args = false ->
  triple (fun _ => True) (main env args)
    (fun c w' => c = 0 ->
       exists v, answered env w' v /\ state_of v = Some (JStr "Succeeded")).
Proof.
  intros Hw. unfold main. rewrite Hw. triple_skip.
  all: apply (triple_bind _ _ _ _ _ (triple_deploy_template _ _ _ _ _ _)).
  all: intros result; destruct (truthy result) eqn:Ht;
    [|apply triple_ret; intros ? _ ?; discriminate].
  all: apply (triple_pre _ (fun w0 =>
         state_of result = Some (JStr "Succeeded") /\ answered env w0 result));
    [intros w0 [Hn|[Hs Hl]];
       [rewrite Hn in Ht; discriminate Ht
       |split; [exact Hs|apply last_reply_body_answered; exact Hl]]
    |apply triple_pre_pure; intros Hs].
  all: triple_answered env result.
Qed.

(** X14. Outside what-if mode, [main] ends with status 0 only after a
    request of the run has been answered with a document whose
    [properties.provisioningState] is [Succeeded]. *)
Theorem main_exit_zero_deployed (env : Env) (args : Args) (w w' : World) :
  what_if args = false ->
  main env args w = Ret 0 w' ->
  exists v, answered env w' v /\ state_of v = Some (JStr "Succeeded").
Proof.
  intros Hw Hm.
  pose proof (triple_main_deploy env args Hw w I) as T.
  rewrite Hm in T. apply T. reflexivity.
Qed.

Lemma main_exit_zero_deployed_witness :
  exists w' v,
    main env_deployment args_deploy (fresh_world 0) = Ret 0 w'
    /\ answered env_deployment w' v
    /\ state_of v = Some (JStr "Succeeded").
Proof.
  assert (exists w', main env_deployment args_deploy (fresh_world 0) = Ret 0 w')
    as [w' H] by (eexists; vm_compute; reflexivity).
  exists w'.
  destruct (main_exit_zero_deployed env_deployment args_deploy (fresh_world 0) w'
              eq_refl H) as [v Hv].
  exists v. split; [exact H|exact Hv].
Defined.

(* ------------------------------------------------------------------ *)
(** *** The requests of a run *)

Lemma sends_only_ret {A} (P : Request -> Prop) (a : A) : sends_only P (ret a).
Proof. intros w. exists []. split; [reflexivity|constructor]. Qed.

Lemma sends_only_raise {A} (P : Request -> Prop) (e : exn) :
  sends_only P (raise e : M A).
Proof. intros w. exists []. split; [reflexivity|constructor]. Qed.

Lemma sends_only_bind {A B} (P : Request -> Prop) (m : M A) (k : A -> M B) :
  sends_only P m -> (forall a, sends_only P (k a)) -> sends_only P (bind m k).
Proof.
  intros Hm Hk w. unfold bind. specialize (Hm w).
  destruct (m w) as [a w1|e w1|]; [|exact Hm|exact I].
  destruct Hm as (new1 & H1 & F1). specialize (Hk a w1).
  destruct (k a w1) as [b w2|e w2|]; [| |exact I];
    destruct Hk as (new2 & H2 & F2);
    exists (new2 ++ new1)%list;
    (split; [rewrite H2, H1, app_assoc; reflexivity|apply Forall_app; split; assumption]).
Qed.

Lemma sends_only_try_except {A} (P : Request -> Prop) (m : M A) (c : exn -> bool)
    (h : exn -> M A) :
  sends_only P m -> (forall e, sends_only P (h e)) -> sends_only P (try_except m c h).
Proof.
  intros Hm Hh w. unfold try_except. specialize (Hm w).
  destruct (m w) as [a w1|e w1|]; [exact Hm| |exact I].
  destruct (c e); [|exact Hm].
  destruct Hm as (new1 & H1 & F1). specialize (Hh e w1).
  destruct (h e w1) as [b w2|e2 w2|]; [| |exact I];
    destruct Hh as (new2 & H2 & F2);
    exists (new2 ++ new1)%list;
    (split; [rewrite H2, H1, app_assoc; reflexivity|apply Forall_app; split; assumption]).
Qed.

Lemma sends_only_for_each {A B} (P : Request -> Prop) (f : A -> M B) (l : list A) :
  (forall a, sends_only P (f a)) -> sends_only P (for_each f l).
Proof.
  intros Hf. induction l as [|a l IH]; [apply sends_only_ret|].
  cbn [for_each].
  apply sends_only_bind; [apply Hf|intros b].
  apply sends_only_bind; [exact IH|intros bs].
  apply sends_only_ret.
Qed.

Lemma sends_only_send (P : Request -> Prop) (env : Env) (rq : Request) :
  P rq -> sends_only P (requests_send env rq).
Proof.
  intros H w. unfold requests_send. cbv zeta.
  destruct (http_reply env (List.length (sent w)) rq);
    (exists [rq]; split; [reflexivity|constructor; [exact H|constructor]]).
Qed.

Ltac sends_quiet :=
  let w := fresh "w" in
  intros w;
  cbv beta iota zeta delta
    [bind ret raise try_except lift print time_time int_time
     set_credential set_access_token set_attrs get_attrs
     credential_get_token any_Exception _get_headers raise_for_status
     response_json time_sleep print_if_verbose print_response_if_verbose
     py_get py_getitem py_items py_contains init];
  repeat match goal with
         | |- context [match ?x with _ => _ end] => destruct_scrutinee x; cbv beta iota
         | |- context [if ?x then _ else _] => destruct_scrutinee x; cbv beta iota
         end;
  first [exact I|exists []; split; [reflexivity|constructor]].

Create HintDb sends.

Ltac sends_auto :=
  repeat first
    [ solve [auto with sends]
    | match goal with
      | |- sends_only _ (ret _) => apply sends_only_ret
      | |- sends_only _ (raise _) => apply sends_only_raise
      | |- sends_only _ (bind _ _) => apply sends_only_bind; [|intros ?]
      | |- sends_only _ (try_except _ _ _) => apply sends_only_try_except; [|intros ?]
      | |- sends_only _ (for_each _ _) => apply sends_only_for_each; intros ?
      | |- sends_only _ (requests_get _ _) => unfold requests_get
      | |- sends_only _ (requests_post _ _ _) => unfold requests_post
      | |- sends_only _ (requests_put _ _ _) => unfold requests_put
      | |- sends_only _ (requests_send _ _) =>
          apply sends_only_send; intros Hm;
          first [discriminate Hm|eexists; split; reflexivity]
      | |- sends_only _ (if true then _ else _) => cbv beta iota
      | |- sends_only _ (if ?b then _ else _) => destruct b
      | |- sends_only _ (match ?x with _ => _ end) => destruct x
      | |- sends_only _ (let _ := _ in _) => cbv zeta
      end
    | solve [sends_quiet] ].

Lemma sends_only_poll_async (env : Env) (args : Args) (fuel : nat) (u : string)
    (timeout poll_interval : Z) :
  sends_only (no_deployment args)
    (_poll_async_operation env fuel u timeout poll_interval).
Proof.
  unfold _poll_async_operation.
  apply sends_only_bind; [sends_quiet|intros start_time].
  induction fuel as [|fuel IH]; [intros w; exact I|].
  cbn [poll_async_loop]. unfold poll_async_body. sends_auto.
Qed.

Lemma sends_only_authenticate (env : Env) (args : Args) (self : Deployer) :
  sends_only (no_deployment args) (authenticate env self).
Proof. unfold authenticate. sends_auto. Qed.

Lemma sends_only_get_subscription_info (env : Env) (args : Args) (self : Deployer) :
  sends_only (no_deployment args) (get_subscription_info env self).
Proof. unfold get_subscription_info. sends_auto. Qed.

Lemma sends_only_check_resource_group_exists (env : Env) (args : Args)
    (self : Deployer) (rg : string) :
  sends_only (no_deployment args) (check_resource_group_exists env self rg).
Proof. unfold check_resource_group_exists. sends_auto. Qed.

Lemma sends_only_create_resource_group (env : Env) (args : Args) (self : Deployer) :
  sends_only (no_deployment args)
    (create_resource_group env self (resource_group args) (location args)).
Proof. unfold create_resource_group. sends_auto. Qed.

Lemma sends_only_compile_bicep (env : Env) (args : Args) (self : Deployer)
    (file : string) :
  sends_only (no_deployment args) (compile_bicep env self file).
Proof. unfold compile_bicep. sends_auto. Qed.

Lemma sends_only_load_parameters (env : Env) (args : Args) (path : string) :
  sends_only (no_deployment args) (load_parameters env path).
Proof. unfold load_parameters. sends_auto. Qed.

#[local] Hint Resolve sends_only_poll_async : sends.

Lemma sends_only_validate_deployment (env : Env) (args : Args) (self : Deployer)
    (rg : string) (template parameters : json) :
  sends_only (no_deployment args)
    (validate_deployment env self rg template parameters).
Proof. unfold validate_deployment. sends_auto. Qed.

#[local] Hint Resolve sends_only_authenticate sends_only_get_subscription_info
  sends_only_check_resource_group_exists sends_only_create_resource_group
  sends_only_compile_bicep sends_only_load_parameters
  sends_only_validate_deployment : sends.

(** X16. In what-if mode [main] deploys nothing: the only [PUT] it can
    send is the one that creates the resource group named on the command
    line (a what-if run does create a missing resource group); everything
    else it sends is a [GET] or the what-if [POST].  Requests sent before
    the run stay in the log. *)
Theorem main_what_if_never_deploys (env : Env) (args : Args) :
  what_if args = true ->
  sends_only (no_deployment args) (main env args).
Proof.
  intros Hw. unfold main. rewrite Hw. sends_auto.
Qed.

Lemma main_what_if_never_deploys_witness :
  exists w',
    main env_no_group args_what_if_new_group (fresh_world 0) = Ret 0 w'
    /\ Forall (no_deployment args_what_if_new_group) (sent w')
    /\ map method (sent w') = [POST; PUT; GET; GET].
Proof.
  assert (exists w',
             main env_no_group args_what_if_new_group (fresh_world 0) = Ret 0 w'
             /\ map method (sent w') = [POST; PUT; GET; GET])
    as (w' & Hrun & Hm) by (eexists; split; vm_compute; reflexivity).
  exists w'. split; [exact Hrun|]. split; [|exact Hm].
  pose proof (main_what_if_never_deploys env_no_group args_what_if_new_group
                eq_refl (fresh_world 0)) as H.
  rewrite Hrun in H. destruct H as (new & Hs & F).
  cbn [fresh_world sent] in Hs. rewrite app_nil_r in Hs. rewrite Hs. exact F.
Defined.

(** X17. [get_subscription_info] sends one GET to the subscription URL and
    returns the JSON document of the reply.  When the request fails (a
    [RequestException], an error status, a body that is not JSON) it
    returns [None]; an exception of another class escapes. *)
Theorem get_subscription_info_result (env : Env) (self : Deployer) (w : World) :
  let rq := get_request (subscription_url self) w in
  let w1 := after_request env rq w in
  let reply := http_reply env (List.length (sent w)) rq in
  (forall j, ok_reply reply j -> get_subscription_info env self w = Ret j w1)
  /\ (failed_reply reply ->
      exists w', get_subscription_info env self w = Ret JNull w'
                 /\ sent w' = rq :: sent w)
  /\ (forall e, reply = Exn e -> is_RequestException e = false ->
      get_subscription_info env self w = Raise e w1).
Proof.
  intros rq w1 reply. subst rq w1 reply.
  unfold get_subscription_info, get_request, after_request, ok_reply,
    failed_reply, is_error_status.
  unfold_m. cbn.
  split; [|split].
  - intros j [r [Hr [He Hb]]]. rewrite Hr. cbn. rewrite He. cbn.
    rewrite Hb. reflexivity.
  - intros [[x Hr]|[r [Hr [He|Hb]]]]; rewrite Hr; cbn.
    + eexists. split; reflexivity.
    + rewrite He. cbn. eexists. split; reflexivity.
    + destruct (Z.leb 400 (status_code r) && Z.ltb (status_code r) 600); cbn;
        [eexists; split; reflexivity|].
      rewrite Hb. cbn. eexists. split; reflexivity.
  - intros e Hr He. rewrite Hr. cbn. rewrite He. reflexivity.
Qed.

Lemma get_subscription_info_result_witness :
  exists w', get_subscription_info env_lookup_500 a_deployer (fresh_world 0)
             = Ret JNull w'
             /\ sent w' = [get_request (subscription_url a_deployer) (fresh_world 0)].
Proof.
  apply (proj1 (proj2 (get_subscription_info_result env_lookup_500 a_deployer
                         (fresh_world 0)))).
  right. eexists. split; [reflexivity|]. left. reflexivity.
Defined.
